(** * formula-finder: ownership chain and action handlers

    A shallow embedding of [src/db/tables.ts] (the table definitions and the
    [server] action handlers).  Tables are ordered lists of rows with an
    auto-increment counter, handlers are computations in a state-and-exception
    monad over the database, and [new Date()] is an explicit argument of the
    handler that reads the clock. *)

From Stdlib Require Import ZArith List String Bool Lia.
Import ListNotations.

Local Open Scope string_scope.
Local Open Scope list_scope.
Local Open Scope Z_scope.

(** ** Column types *)

(** [column.date]: milliseconds since the epoch. *)
Definition Date := Z.

(** [column.json] payloads. *)
#[local] Unset Elimination Schemes.
Inductive Json : Type :=
| JNull
| JBool (b : bool)
| JNumber (n : Z)
| JString (s : string)
| JArray (xs : list Json)
| JObject (fields : list (string * Json)).
#[local] Set Elimination Schemes.

(** [z.record(z.any())] *)
Definition JsonRecord := list (string * Json).

Inductive Difficulty := basic | intermediate | advanced.

Inductive Familiarity := new | learning | comfortable | mastered.

(** [variableSchema] *)
Module FormulaVariable.
Record t := mk {
  symbol : string;
  meaning : option string;
  unit : option string
}.
End FormulaVariable.

(** ** Rows of the four tables

    An [optional] column is [option]: [None] is SQL NULL. *)

Module FormulaGroup.
Record t := mk {
  id : Z;
  ownerId : option string;
  name : string;
  subject : option string;
  tags : option string;
  description : option string;
  slug : option string;
  isActive : bool;
  createdAt : Date;
  updatedAt : Date
}.
End FormulaGroup.

Module Formula.
Record t := mk {
  id : Z;
  groupId : option Z;
  name : string;
  expression : string;
  description : option string;
  variables : option (list FormulaVariable.t);
  meta : option JsonRecord;
  difficulty : Difficulty;
  isActive : bool;
  createdAt : Date;
  updatedAt : Date
}.
End Formula.

Module FormulaExample.
Record t := mk {
  id : Z;
  formulaId : Z;
  title : option string;
  problem : string;
  solution : string;
  data : option JsonRecord;
  createdAt : Date
}.
End FormulaExample.

Module UserState.
Record t := mk {
  id : Z;
  userId : string;
  formulaId : Z;
  isFavorite : bool;
  note : option string;
  familiarity : Familiarity;
  createdAt : Date;
  updatedAt : Date
}.
End UserState.

(** ** The store

    A table keeps its rows in insertion order together with the largest id the
    auto-increment primary key has handed out. *)

Class HasId (R : Type) := row_id : R -> Z.

#[global] Instance FormulaGroup_HasId : HasId FormulaGroup.t := FormulaGroup.id.
#[global] Instance Formula_HasId : HasId Formula.t := Formula.id.
#[global] Instance FormulaExample_HasId : HasId FormulaExample.t := FormulaExample.id.
#[global] Instance UserState_HasId : HasId UserState.t := UserState.id.

Record Table (R : Type) := mkTable {
  rows : list R;
  lastId : Z
}.
Arguments mkTable {R} _ _.
Arguments rows {R} _.
Arguments lastId {R} _.

Section TableOps.
Context {R : Type} `{HasId R}.

(** [db.select().from(T).where(p)] *)
Definition select_where (p : R -> bool) (t : Table R) : list R :=
  filter p (rows t).

(** The id an [autoIncrement] key gives the next row: one more than every id
    the table holds or has handed out. *)
Definition next_id (t : Table R) : Z :=
  1 + fold_right Z.max (lastId t) (map row_id (rows t)).

(** [db.insert(T).values(v).returning()]; [v] lacks only the id. *)
Definition insert_returning (v : Z -> R) (t : Table R) : list R * Table R :=
  let r := v (next_id t) in
  ([r], mkTable (rows t ++ [r]) (next_id t)).

(** [db.update(T).set(s).where(p).returning()] *)
Definition update_where (p : R -> bool) (s : R -> R) (t : Table R)
  : list R * Table R :=
  (map s (filter p (rows t)),
   mkTable (map (fun r => if p r then s r else r) (rows t)) (lastId t)).
End TableOps.

Record Db := mkDb {
  FormulaGroups : Table FormulaGroup.t;
  Formulas : Table Formula.t;
  FormulaExamples : Table FormulaExample.t;
  UserFormulaState : Table UserState.t
}.

(** ** Errors and the handler monad *)

(** The codes of the errors a handler can end with: the three [ActionError]
    codes it throws itself and the store's code for a violated
    [references] constraint. *)
Inductive ErrorCode :=
| UNAUTHORIZED
| NOT_FOUND
| FORBIDDEN
| SQLITE_CONSTRAINT_FOREIGNKEY.

Record ActionError := mkActionError {
  code : ErrorCode;
  message : string
}.

Inductive Outcome (A : Type) : Type :=
| Returned (a : A)
| Thrown (e : ActionError).
Arguments Returned {A} _.
Arguments Thrown {A} _.

(** An awaited computation: it reads and writes the database and either
    returns or throws; a throw keeps the database as it was at the throw. *)
Definition Async (A : Type) : Type := Db -> Outcome A * Db.

Definition ret {A} (a : A) : Async A := fun db => (Returned a, db).

Definition throw {A} (e : ActionError) : Async A := fun db => (Thrown e, db).

Definition bind {A B} (m : Async A) (k : A -> Async B) : Async B :=
  fun db =>
    match m db with
    | (Returned a, db') => k a db'
    | (Thrown e, db') => (Thrown e, db')
    end.

Notation "x <- m ;; k" := (bind m (fun x => k))
  (at level 61, m at next level, right associativity).
Notation "m ;;; k" := (bind m (fun _ => k))
  (at level 61, right associativity).

Definition outcome {A} (r : Outcome A * Db) : Outcome A := fst r.
Definition final {A} (r : Outcome A * Db) : Db := snd r.

(** Queries against each table. *)
Definition selectFormulaGroups (p : FormulaGroup.t -> bool)
  : Async (list FormulaGroup.t) :=
  fun db => (Returned (select_where p (FormulaGroups db)), db).

Definition selectFormulas (p : Formula.t -> bool) : Async (list Formula.t) :=
  fun db => (Returned (select_where p (Formulas db)), db).

Definition selectFormulaExamples (p : FormulaExample.t -> bool)
  : Async (list FormulaExample.t) :=
  fun db => (Returned (select_where p (FormulaExamples db)), db).

Definition selectUserFormulaState (p : UserState.t -> bool)
  : Async (list UserState.t) :=
  fun db => (Returned (select_where p (UserFormulaState db)), db).

Definition insertFormulaGroups (v : Z -> FormulaGroup.t)
  : Async (list FormulaGroup.t) :=
  fun db =>
    let (out, t) := insert_returning v (FormulaGroups db) in
    (Returned out,
     mkDb t (Formulas db) (FormulaExamples db) (UserFormulaState db)).

(** [Formulas.groupId] and [FormulaExamples.formulaId] are declared
    [references] too; every handler that writes them has looked the named row
    up first, so these writes are never refused. *)
Definition insertFormulas (v : Z -> Formula.t) : Async (list Formula.t) :=
  fun db =>
    let (out, t) := insert_returning v (Formulas db) in
    (Returned out,
     mkDb (FormulaGroups db) t (FormulaExamples db) (UserFormulaState db)).

Definition insertFormulaExamples (v : Z -> FormulaExample.t)
  : Async (list FormulaExample.t) :=
  fun db =>
    let (out, t) := insert_returning v (FormulaExamples db) in
    (Returned out,
     mkDb (FormulaGroups db) (Formulas db) t (UserFormulaState db)).

(** The error of the store when an inserted row names, in a column declared
    [references], a row that is not there. *)
Definition foreignKeyFailed : ActionError :=
  mkActionError SQLITE_CONSTRAINT_FOREIGNKEY "FOREIGN KEY constraint failed".

(** [UserFormulaState.formulaId] is declared
    [references: () => Formulas.columns.id], and [upsertUserFormulaState]
    inserts without looking the formula up: the store refuses the row, and
    keeps everything as it was, when no formula has that id. *)
Definition insertUserFormulaState (v : Z -> UserState.t)
  : Async (list UserState.t) :=
  fun db =>
    match find (fun f => Formula.id f
                         =? UserState.formulaId
                              (v (next_id (UserFormulaState db))))
            (rows (Formulas db)) with
    | None => (Thrown foreignKeyFailed, db)
    | Some _ =>
        let (out, t) := insert_returning v (UserFormulaState db) in
        (Returned out,
         mkDb (FormulaGroups db) (Formulas db) (FormulaExamples db) t)
    end.

Definition updateFormulaGroups (p : FormulaGroup.t -> bool)
  (s : FormulaGroup.t -> FormulaGroup.t) : Async (list FormulaGroup.t) :=
  fun db =>
    let (out, t) := update_where p s (FormulaGroups db) in
    (Returned out,
     mkDb t (Formulas db) (FormulaExamples db) (UserFormulaState db)).

Definition updateFormulas (p : Formula.t -> bool) (s : Formula.t -> Formula.t)
  : Async (list Formula.t) :=
  fun db =>
    let (out, t) := update_where p s (Formulas db) in
    (Returned out,
     mkDb (FormulaGroups db) t (FormulaExamples db) (UserFormulaState db)).

Definition updateUserFormulaState (p : UserState.t -> bool)
  (s : UserState.t -> UserState.t) : Async (list UserState.t) :=
  fun db =>
    let (out, t) := update_where p s (UserFormulaState db) in
    (Returned out,
     mkDb (FormulaGroups db) (Formulas db) (FormulaExamples db) t).

(** ** JavaScript operators the handlers rely on *)

(** Truthiness of a [string | null] value: null and the empty string are
    falsy. *)
Definition truthy (o : option string) : bool :=
  match o with
  | Some s => negb (String.eqb s "")
  | None => false
  end.

(** [o !== s] for [o : string | null]. *)
Definition strict_ne (o : option string) (s : string) : bool :=
  match o with
  | Some x => negb (String.eqb x s)
  | None => true
  end.

(** [a ?? b] *)
Definition nullish {A} (a : option A) (b : A) : A :=
  match a with
  | Some x => x
  | None => b
  end.

(** [const [x] = xs]: the first element, or undefined. *)
Definition first {A} (xs : list A) : option A := hd_error xs.

(** SQL [eq(column, value)] on a nullable text column: NULL matches nothing. *)
Definition eq_text (c : option string) (v : string) : bool :=
  match c with
  | Some x => String.eqb x v
  | None => false
  end.

(** SQL [eq(column, value)] on a nullable number column. *)
Definition eq_number (c : option Z) (v : Z) : bool :=
  match c with
  | Some x => Z.eqb x v
  | None => false
  end.

(** ** The caller *)

Record User := mkUser { user_id : string }.

(** [App.Locals] *)
Record Locals := mkLocals { user : option User }.

Record ActionAPIContext := mkContext { locals : option Locals }.

(** [locals?.user] *)
Definition currentUser (context : ActionAPIContext) : option User :=
  match locals context with
  | Some l => user l
  | None => None
  end.

Definition requireUser (context : ActionAPIContext) : Async User :=
  match currentUser context with
  | Some u => ret u
  | None =>
      throw (mkActionError UNAUTHORIZED
               "You must be signed in to perform this action.")
  end.

(** ** Ownership resolver *)

Definition getOwnedGroup (groupId : Z) (userId : string)
  : Async FormulaGroup.t :=
  found <- selectFormulaGroups (fun g => Z.eqb (FormulaGroup.id g) groupId) ;;
  match first found with
  | None => throw (mkActionError NOT_FOUND "Formula group not found.")
  | Some group =>
      if truthy (FormulaGroup.ownerId group)
         && strict_ne (FormulaGroup.ownerId group) userId
      then throw (mkActionError FORBIDDEN
                    "You do not have access to this group.")
      else ret group
  end.

Definition ensureFormulaIsEditable (formulaId : Z) (userId : string)
  : Async Formula.t :=
  found <- selectFormulas (fun f => Z.eqb (Formula.id f) formulaId) ;;
  match first found with
  | None => throw (mkActionError NOT_FOUND "Formula not found.")
  | Some formula =>
      match Formula.groupId formula with
      | Some g => getOwnedGroup g userId ;;; ret formula
      | None => ret formula
      end
  end.

(** ** Action inputs (the output types of the zod schemas)

    A field declared [.optional()] is [option]: [None] is [undefined].  A
    field with a [.default(...)] is always present after parsing. *)

Module CreateGroupInput.
Record t := mk {
  name : string;
  subject : option string;
  tags : option string;
  description : option string;
  slug : option string;
  isActive : option bool
}.
End CreateGroupInput.

(** [updateGroupSchema] *)
Module UpdateGroupInput.
Record t := mk {
  id : Z;
  name : option string;
  subject : option string;
  tags : option string;
  description : option string;
  slug : option string;
  isActive : option bool
}.
End UpdateGroupInput.

Module ListGroupsInput.
Record t := mk { includeInactive : bool }.
End ListGroupsInput.

Module CreateFormulaInput.
Record t := mk {
  groupId : option Z;
  name : string;
  expression : string;
  description : option string;
  variables : option (list FormulaVariable.t);
  meta : option JsonRecord;
  difficulty : Difficulty;
  isActive : option bool
}.
End CreateFormulaInput.

(** [updateFormulaSchema] *)
Module UpdateFormulaInput.
Record t := mk {
  id : Z;
  groupId : option Z;
  name : option string;
  expression : option string;
  description : option string;
  variables : option (list FormulaVariable.t);
  meta : option JsonRecord;
  difficulty : option Difficulty;
  isActive : option bool
}.
End UpdateFormulaInput.

Module ArchiveFormulaInput.
Record t := mk { id : Z }.
End ArchiveFormulaInput.

Module ListFormulasInput.
Record t := mk {
  groupId : option Z;
  difficulty : option Difficulty;
  includeInactive : bool
}.
End ListFormulasInput.

Module CreateExampleInput.
Record t := mk {
  formulaId : Z;
  title : option string;
  problem : string;
  solution : string;
  data : option JsonRecord
}.
End CreateExampleInput.

Module ListExamplesInput.
Record t := mk { formulaId : Z }.
End ListExamplesInput.

Module UpsertStateInput.
Record t := mk {
  formulaId : Z;
  isFavorite : option bool;
  note : option string;
  familiarity : option Familiarity
}.
End UpsertStateInput.

Module ListStatesInput.
Record t := mk { favoritesOnly : bool }.
End ListStatesInput.

(** The refinements of the two update schemas. *)
Definition defined {A} (a : option A) : bool :=
  match a with Some _ => true | None => false end.

Definition updateGroupSchema_refine (input : UpdateGroupInput.t) : bool :=
  defined (UpdateGroupInput.name input)
  || defined (UpdateGroupInput.subject input)
  || defined (UpdateGroupInput.tags input)
  || defined (UpdateGroupInput.description input)
  || defined (UpdateGroupInput.slug input)
  || defined (UpdateGroupInput.isActive input).

Definition updateFormulaSchema_refine (input : UpdateFormulaInput.t) : bool :=
  defined (UpdateFormulaInput.groupId input)
  || defined (UpdateFormulaInput.name input)
  || defined (UpdateFormulaInput.expression input)
  || defined (UpdateFormulaInput.description input)
  || defined (UpdateFormulaInput.variables input)
  || defined (UpdateFormulaInput.meta input)
  || defined (UpdateFormulaInput.difficulty input)
  || defined (UpdateFormulaInput.isActive input).

(** ** Action outputs *)

(** The [data] object of a response; a key bound by [const [x] = ...] may be
    undefined, a listing carries [items] and [total]. *)
Inductive ResponseData : Type :=
| DataGroup (group : option FormulaGroup.t)
| DataGroups (items : list FormulaGroup.t) (total : nat)
| DataFormula (formula : option Formula.t)
| DataFormulas (items : list Formula.t) (total : nat)
| DataExample (example : option FormulaExample.t)
| DataExamples (items : list FormulaExample.t) (total : nat)
| DataState (state : option UserState.t)
| DataStates (items : list UserState.t) (total : nat).

(** The returned object; [data = None] when the object has no [data] key. *)
Record Response := mkResponse {
  success : bool;
  data : option ResponseData
}.

(** ** Conditional spreads in [.set({...})]

    [...(x !== undefined ? { k: x } : {})] writes column [k] only when [x] is
    defined. *)
Definition spread {A} (x : option A) (old : A) : A :=
  match x with
  | Some v => v
  | None => old
  end.

Definition spread_nullable {A} (x : option A) (old : option A) : option A :=
  match x with
  | Some v => Some v
  | None => old
  end.

(** ** Group actions *)

Definition createFormulaGroup (now : Date) (input : CreateGroupInput.t)
  (context : ActionAPIContext) : Async Response :=
  user <- requireUser context ;;
  inserted <- insertFormulaGroups (fun i =>
    FormulaGroup.mk i
      (Some (user_id user))
      (CreateGroupInput.name input)
      (CreateGroupInput.subject input)
      (CreateGroupInput.tags input)
      (CreateGroupInput.description input)
      (CreateGroupInput.slug input)
      (nullish (CreateGroupInput.isActive input) true)
      now
      now) ;;
  ret (mkResponse true (Some (DataGroup (first inserted)))).

(** The object handed to [.set] in [updateFormulaGroup]. *)
Definition setFormulaGroup (now : Date) (input : UpdateGroupInput.t)
  (g : FormulaGroup.t) : FormulaGroup.t :=
  FormulaGroup.mk
    (FormulaGroup.id g)
    (FormulaGroup.ownerId g)
    (spread (UpdateGroupInput.name input) (FormulaGroup.name g))
    (spread_nullable (UpdateGroupInput.subject input) (FormulaGroup.subject g))
    (spread_nullable (UpdateGroupInput.tags input) (FormulaGroup.tags g))
    (spread_nullable (UpdateGroupInput.description input)
       (FormulaGroup.description g))
    (spread_nullable (UpdateGroupInput.slug input) (FormulaGroup.slug g))
    (spread (UpdateGroupInput.isActive input) (FormulaGroup.isActive g))
    (FormulaGroup.createdAt g)
    now.

Definition updateFormulaGroup (now : Date) (input : UpdateGroupInput.t)
  (context : ActionAPIContext) : Async Response :=
  user <- requireUser context ;;
  getOwnedGroup (UpdateGroupInput.id input) (user_id user) ;;;
  updated <- updateFormulaGroups
    (fun g => Z.eqb (FormulaGroup.id g) (UpdateGroupInput.id input))
    (setFormulaGroup now input) ;;
  ret (mkResponse true (Some (DataGroup (first updated)))).

Definition listMyFormulaGroups (input : option ListGroupsInput.t)
  (context : ActionAPIContext) : Async Response :=
  user <- requireUser context ;;
  let includeInactive :=
    nullish (option_map ListGroupsInput.includeInactive input) false in
  groups <- selectFormulaGroups
    (if includeInactive
     then fun g => eq_text (FormulaGroup.ownerId g) (user_id user)
     else fun g => eq_text (FormulaGroup.ownerId g) (user_id user)
                   && Bool.eqb (FormulaGroup.isActive g) true) ;;
  ret (mkResponse true (Some (DataGroups groups (List.length groups)))).

(** ** Formula actions *)

Definition createFormula (now : Date) (input : CreateFormulaInput.t)
  (context : ActionAPIContext) : Async Response :=
  user <- requireUser context ;;
  match CreateFormulaInput.groupId input with
  | Some g => getOwnedGroup g (user_id user) ;;; ret tt
  | None => ret tt
  end ;;;
  inserted <- insertFormulas (fun i =>
    Formula.mk i
      (CreateFormulaInput.groupId input)
      (CreateFormulaInput.name input)
      (CreateFormulaInput.expression input)
      (CreateFormulaInput.description input)
      (CreateFormulaInput.variables input)
      (CreateFormulaInput.meta input)
      (CreateFormulaInput.difficulty input)
      (nullish (CreateFormulaInput.isActive input) true)
      now
      now) ;;
  ret (mkResponse true (Some (DataFormula (first inserted)))).

(** The object handed to [.set] in [updateFormula]. *)
Definition setFormula (now : Date) (input : UpdateFormulaInput.t)
  (f : Formula.t) : Formula.t :=
  Formula.mk
    (Formula.id f)
    (spread_nullable (UpdateFormulaInput.groupId input) (Formula.groupId f))
    (spread (UpdateFormulaInput.name input) (Formula.name f))
    (spread (UpdateFormulaInput.expression input) (Formula.expression f))
    (spread_nullable (UpdateFormulaInput.description input)
       (Formula.description f))
    (spread_nullable (UpdateFormulaInput.variables input)
       (Formula.variables f))
    (spread_nullable (UpdateFormulaInput.meta input) (Formula.meta f))
    (spread (UpdateFormulaInput.difficulty input) (Formula.difficulty f))
    (spread (UpdateFormulaInput.isActive input) (Formula.isActive f))
    (Formula.createdAt f)
    now.

Definition updateFormula (now : Date) (input : UpdateFormulaInput.t)
  (context : ActionAPIContext) : Async Response :=
  user <- requireUser context ;;
  formula <- ensureFormulaIsEditable (UpdateFormulaInput.id input)
               (user_id user) ;;
  match UpdateFormulaInput.groupId input with
  | Some g => getOwnedGroup g (user_id user) ;;; ret tt
  | None =>
      match Formula.groupId formula with
      | Some g => getOwnedGroup g (user_id user) ;;; ret tt
      | None => ret tt
      end
  end ;;;
  updated <- updateFormulas
    (fun f => Z.eqb (Formula.id f) (UpdateFormulaInput.id input))
    (setFormula now input) ;;
  ret (mkResponse true (Some (DataFormula (first updated)))).

(** The object handed to [.set] in [archiveFormula]. *)
Definition setArchived (now : Date) (f : Formula.t) : Formula.t :=
  Formula.mk
    (Formula.id f)
    (Formula.groupId f)
    (Formula.name f)
    (Formula.expression f)
    (Formula.description f)
    (Formula.variables f)
    (Formula.meta f)
    (Formula.difficulty f)
    false
    (Formula.createdAt f)
    now.

Definition archiveFormula (now : Date) (input : ArchiveFormulaInput.t)
  (context : ActionAPIContext) : Async Response :=
  user <- requireUser context ;;
  ensureFormulaIsEditable (ArchiveFormulaInput.id input) (user_id user) ;;;
  updateFormulas
    (fun f => Z.eqb (Formula.id f) (ArchiveFormulaInput.id input))
    (setArchived now) ;;;
  ret (mkResponse true None).

(** [and(...filters)] *)
Definition and_ {R} (filters : list (R -> bool)) (r : R) : bool :=
  forallb (fun p => p r) filters.

Definition difficulty_eqb (a b : Difficulty) : bool :=
  match a, b with
  | basic, basic | intermediate, intermediate | advanced, advanced => true
  | _, _ => false
  end.

Definition listFormulas (input : option ListFormulasInput.t)
  (context : ActionAPIContext) : Async Response :=
  requireUser context ;;;
  let includeInactive :=
    nullish (option_map ListFormulasInput.includeInactive input) false in
  let filters : list (Formula.t -> bool) := [] in
  let filters :=
    match input with
    | Some i =>
        match ListFormulasInput.groupId i with
        | Some g => filters ++ [fun f => eq_number (Formula.groupId f) g]
        | None => filters
        end
    | None => filters
    end in
  let filters :=
    match input with
    | Some i =>
        match ListFormulasInput.difficulty i with
        | Some d =>
            filters ++ [fun f => difficulty_eqb (Formula.difficulty f) d]
        | None => filters
        end
    | None => filters
    end in
  let filters :=
    if negb includeInactive
    then filters ++ [fun f => Bool.eqb (Formula.isActive f) true]
    else filters in
  formulas <- match filters with
              | _ :: _ => selectFormulas (and_ filters)
              | [] => selectFormulas (fun _ => true)
              end ;;
  ret (mkResponse true (Some (DataFormulas formulas (List.length formulas)))).

(** ** Example actions *)

Definition createFormulaExample (now : Date) (input : CreateExampleInput.t)
  (context : ActionAPIContext) : Async Response :=
  user <- requireUser context ;;
  formula <- ensureFormulaIsEditable (CreateExampleInput.formulaId input)
               (user_id user) ;;
  match Formula.groupId formula with
  | Some g => getOwnedGroup g (user_id user) ;;; ret tt
  | None => ret tt
  end ;;;
  inserted <- insertFormulaExamples (fun i =>
    FormulaExample.mk i
      (CreateExampleInput.formulaId input)
      (CreateExampleInput.title input)
      (CreateExampleInput.problem input)
      (CreateExampleInput.solution input)
      (CreateExampleInput.data input)
      now) ;;
  ret (mkResponse true (Some (DataExample (first inserted)))).

Definition listFormulaExamples (input : ListExamplesInput.t)
  (context : ActionAPIContext) : Async Response :=
  requireUser context ;;;
  examples <- selectFormulaExamples
    (fun e => FormulaExample.formulaId e
              =? ListExamplesInput.formulaId input) ;;
  ret (mkResponse true (Some (DataExamples examples (List.length examples)))).

(** ** User-state actions *)

(** The object handed to [.set] in [upsertUserFormulaState]. *)
Definition setUserState (now : Date) (input : UpsertStateInput.t)
  (s : UserState.t) : UserState.t :=
  UserState.mk
    (UserState.id s)
    (UserState.userId s)
    (UserState.formulaId s)
    (spread (UpsertStateInput.isFavorite input) (UserState.isFavorite s))
    (spread_nullable (UpsertStateInput.note input) (UserState.note s))
    (spread (UpsertStateInput.familiarity input) (UserState.familiarity s))
    (UserState.createdAt s)
    now.

Definition upsertUserFormulaState (now : Date) (input : UpsertStateInput.t)
  (context : ActionAPIContext) : Async Response :=
  user <- requireUser context ;;
  found <- selectUserFormulaState
    (fun s => (UserState.formulaId s =? UpsertStateInput.formulaId input)
              && String.eqb (UserState.userId s) (user_id user)) ;;
  match first found with
  | Some existing =>
      updated <- updateUserFormulaState
        (fun s => UserState.id s =? UserState.id existing)
        (setUserState now input) ;;
      ret (mkResponse true (Some (DataState (first updated))))
  | None =>
      inserted <- insertUserFormulaState (fun i =>
        UserState.mk i
          (user_id user)
          (UpsertStateInput.formulaId input)
          (nullish (UpsertStateInput.isFavorite input) false)
          (UpsertStateInput.note input)
          (nullish (UpsertStateInput.familiarity input) new)
          now
          now) ;;
      ret (mkResponse true (Some (DataState (first inserted))))
  end.

Definition listUserFormulaStates (input : option ListStatesInput.t)
  (context : ActionAPIContext) : Async Response :=
  user <- requireUser context ;;
  let favoritesOnly :=
    nullish (option_map ListStatesInput.favoritesOnly input) false in
  let filters : list (UserState.t -> bool) :=
    [fun s => String.eqb (UserState.userId s) (user_id user)] in
  let filters :=
    if favoritesOnly
    then filters ++ [fun s => Bool.eqb (UserState.isFavorite s) true]
    else filters in
  states <- selectUserFormulaState (and_ filters) ;;
  ret (mkResponse true (Some (DataStates states (List.length states)))).

(** ** The [server] object *)

Inductive Action : Type :=
| CreateFormulaGroup (input : CreateGroupInput.t)
| UpdateFormulaGroup (input : UpdateGroupInput.t)
| ListMyFormulaGroups (input : option ListGroupsInput.t)
| CreateFormula (input : CreateFormulaInput.t)
| UpdateFormula (input : UpdateFormulaInput.t)
| ArchiveFormula (input : ArchiveFormulaInput.t)
| ListFormulas (input : option ListFormulasInput.t)
| CreateFormulaExample (input : CreateExampleInput.t)
| ListFormulaExamples (input : ListExamplesInput.t)
| UpsertUserFormulaState (input : UpsertStateInput.t)
| ListUserFormulaStates (input : option ListStatesInput.t).

(** Calling an action of [server] by name. *)
Definition server (now : Date) (a : Action) (context : ActionAPIContext)
  : Async Response :=
  match a with
  | CreateFormulaGroup input => createFormulaGroup now input context
  | UpdateFormulaGroup input => updateFormulaGroup now input context
  | ListMyFormulaGroups input => listMyFormulaGroups input context
  | CreateFormula input => createFormula now input context
  | UpdateFormula input => updateFormula now input context
  | ArchiveFormula input => archiveFormula now input context
  | ListFormulas input => listFormulas input context
  | CreateFormulaExample input => createFormulaExample now input context
  | ListFormulaExamples input => listFormulaExamples input context
  | UpsertUserFormulaState input => upsertUserFormulaState now input context
  | ListUserFormulaStates input => listUserFormulaStates input context
  end.

(** * Verification *)

(** ** Vocabulary of the statements *)

Definition signedIn (u : string) : ActionAPIContext :=
  mkContext (Some (mkLocals (Some (mkUser u)))).

Definition anonymous : ActionAPIContext := mkContext (Some (mkLocals None)).

(** The group, formula with a given primary key, if the table has one. *)
Definition findGroup (db : Db) (groupId : Z) : option FormulaGroup.t :=
  find (fun g => FormulaGroup.id g =? groupId) (rows (FormulaGroups db)).

Definition findFormula (db : Db) (formulaId : Z) : option Formula.t :=
  find (fun f => Formula.id f =? formulaId) (rows (Formulas db)).

Definition thrownCode {A} (o : Outcome A) : option ErrorCode :=
  match o with
  | Thrown e => Some (code e)
  | Returned _ => None
  end.

Definition unauthorized : ActionError :=
  mkActionError UNAUTHORIZED "You must be signed in to perform this action.".
Definition groupNotFound : ActionError :=
  mkActionError NOT_FOUND "Formula group not found.".
Definition formulaNotFound : ActionError :=
  mkActionError NOT_FOUND "Formula not found.".
Definition forbidden : ActionError :=
  mkActionError FORBIDDEN "You do not have access to this group.".

(** ** A small database used by the closed examples

    Group 1 belongs to u1, group 2 to u2, group 3 has no owner and group 4 has
    the empty string as owner; formula 1 sits in group 1, formula 2 in no
    group, formula 3 in group 2. *)
Module Sample.
Definition group (i : Z) (owner : option string) (n : string)
  : FormulaGroup.t :=
  FormulaGroup.mk i owner n None None None None true 100 100.

Definition formula (i : Z) (g : option Z) (n : string) : Formula.t :=
  Formula.mk i g n n None None None basic true 200 200.

Definition db : Db :=
  mkDb
    (mkTable [group 1 (Some "u1") "Kinematics";
              group 2 (Some "u2") "Calculus";
              group 3 None "Shared";
              group 4 (Some "") "Imported"] 4)
    (mkTable [formula 1 (Some 1) "v=u+at";
              formula 2 None "E=mc^2";
              formula 3 (Some 2) "d/dx"] 3)
    (mkTable [FormulaExample.mk 1 1 None "p" "s" None 300;
              FormulaExample.mk 2 2 (Some "rest mass") "p" "s" None 300;
              FormulaExample.mk 3 1 None "q" "r" None 301] 3)
    (mkTable [UserState.mk 1 "u1" 1 true None learning 400 400;
              UserState.mk 2 "u2" 1 false (Some "hard") new 400 400;
              UserState.mk 3 "u1" 2 false None mastered 400 400] 3).

(** An update that only moves formula [i] into group [g]. *)
Definition moveFormula (i g : Z) : UpdateFormulaInput.t :=
  UpdateFormulaInput.mk i (Some g) None None None None None None None.

(** An update that only sets the tags of group 1. *)
Definition retag : UpdateGroupInput.t :=
  UpdateGroupInput.mk 1 None None (Some "mechanics") None None None.

(** An update that only renames formula 2. *)
Definition rename : UpdateFormulaInput.t :=
  UpdateFormulaInput.mk 2 None (Some "Mass-energy") None None None None None
    None.

(** u2 marks formula 2 as a favourite and says nothing else. *)
Definition favourite : UpsertStateInput.t :=
  UpsertStateInput.mk 2 (Some true) None None.

(** A favourite mark for formula 99, which is not stored. *)
Definition orphan : UpsertStateInput.t :=
  UpsertStateInput.mk 99 (Some true) None None.
End Sample.

(** ** Claims as the specification words them *)

(** The group clause of C1 as the specification words it: any non-null owner
    other than the caller is refused. *)
Definition refuses_every_foreign_owner (db : Db) (groupId : Z)
  (userId : string) : Prop :=
  forall g o,
    findGroup db groupId = Some g ->
    FormulaGroup.ownerId g = Some o ->
    o <> userId ->
    thrownCode (outcome (getOwnedGroup groupId userId db)) = Some FORBIDDEN.

(** The destination clause of C2 as the specification words it: once the edit
    rights on the current location are verified, a destination group owned by
    somebody else makes the call fail with FORBIDDEN, nothing written. *)
Definition refuses_move_into_foreign_group (now : Date)
  (input : UpdateFormulaInput.t) (context : ActionAPIContext) (db : Db)
  : Prop :=
  forall u g f dest o,
    currentUser context = Some u ->
    UpdateFormulaInput.groupId input = Some g ->
    outcome (ensureFormulaIsEditable (UpdateFormulaInput.id input)
               (user_id u) db) = Returned f ->
    findGroup db g = Some dest ->
    FormulaGroup.ownerId dest = Some o ->
    o <> user_id u ->
    updateFormula now input context db = (Thrown forbidden, db).

(** The second clause of C7 as the specification words it. *)
Definition refuses_update_by_non_owner (now : Date)
  (input : UpdateGroupInput.t) (context : ActionAPIContext) (db : Db)
  : Prop :=
  forall u g o,
    currentUser context = Some u ->
    findGroup db (UpdateGroupInput.id input) = Some g ->
    FormulaGroup.ownerId g = Some o ->
    o <> user_id u ->
    thrownCode (outcome (updateFormulaGroup now input context db))
    = Some FORBIDDEN.

(** What a partial update may do to one column: a supplied value replaces the
    old one, an omitted one leaves it. *)
Definition kept_or_set {A} (supplied : option A) (old new : A) : Prop :=
  match supplied with
  | Some v => new = v
  | None => new = old
  end.

Definition kept_or_set_nullable {A} (supplied : option A) (old new : option A)
  : Prop :=
  match supplied with
  | Some v => new = Some v
  | None => new = old
  end.

(** [g'] is [g] after the partial update [input] at time [now]. *)
Definition group_patched (now : Date) (input : UpdateGroupInput.t)
  (g g' : FormulaGroup.t) : Prop :=
  FormulaGroup.id g' = FormulaGroup.id g
  /\ FormulaGroup.ownerId g' = FormulaGroup.ownerId g
  /\ kept_or_set (UpdateGroupInput.name input)
       (FormulaGroup.name g) (FormulaGroup.name g')
  /\ kept_or_set_nullable (UpdateGroupInput.subject input)
       (FormulaGroup.subject g) (FormulaGroup.subject g')
  /\ kept_or_set_nullable (UpdateGroupInput.tags input)
       (FormulaGroup.tags g) (FormulaGroup.tags g')
  /\ kept_or_set_nullable (UpdateGroupInput.description input)
       (FormulaGroup.description g) (FormulaGroup.description g')
  /\ kept_or_set_nullable (UpdateGroupInput.slug input)
       (FormulaGroup.slug g) (FormulaGroup.slug g')
  /\ kept_or_set (UpdateGroupInput.isActive input)
       (FormulaGroup.isActive g) (FormulaGroup.isActive g')
  /\ FormulaGroup.createdAt g' = FormulaGroup.createdAt g
  /\ FormulaGroup.updatedAt g' = now.

(** [f'] is [f] after the partial update [input] at time [now]. *)
Definition formula_patched (now : Date) (input : UpdateFormulaInput.t)
  (f f' : Formula.t) : Prop :=
  Formula.id f' = Formula.id f
  /\ kept_or_set_nullable (UpdateFormulaInput.groupId input)
       (Formula.groupId f) (Formula.groupId f')
  /\ kept_or_set (UpdateFormulaInput.name input)
       (Formula.name f) (Formula.name f')
  /\ kept_or_set (UpdateFormulaInput.expression input)
       (Formula.expression f) (Formula.expression f')
  /\ kept_or_set_nullable (UpdateFormulaInput.description input)
       (Formula.description f) (Formula.description f')
  /\ kept_or_set_nullable (UpdateFormulaInput.variables input)
       (Formula.variables f) (Formula.variables f')
  /\ kept_or_set_nullable (UpdateFormulaInput.meta input)
       (Formula.meta f) (Formula.meta f')
  /\ kept_or_set (UpdateFormulaInput.difficulty input)
       (Formula.difficulty f) (Formula.difficulty f')
  /\ kept_or_set (UpdateFormulaInput.isActive input)
       (Formula.isActive f) (Formula.isActive f')
  /\ Formula.createdAt f' = Formula.createdAt f
  /\ Formula.updatedAt f' = now.

(** Row by row, in table order: the rows with primary key [i] are related by
    [patched], every other row is untouched.  Both tables have the same
    number of rows. *)
Definition only_row_changed {R} `{HasId R} (i : Z) (patched : R -> R -> Prop)
  (before after : Table R) : Prop :=
  Forall2 (fun r r' => if row_id r =? i then patched r r' else r' = r)
    (rows before) (rows after)
  /\ lastId after = lastId before.

(** C6 as the specification words it: a successful call of any action returns
    [success: true] together with a [data] object. *)
Definition uniform_envelope (now : Date) (a : Action)
  (context : ActionAPIContext) (db : Db) : Prop :=
  forall resp db',
    server now a context db = (Returned resp, db') ->
    success resp = true /\ exists d, data resp = Some d.

(** Every value a computation can return satisfies [Q]. *)
Definition returns {A} (m : Async A) (Q : A -> Prop) : Prop :=
  forall db a db', m db = (Returned a, db') -> Q a.

(** [f'] is [f] with updatedAt set to [now] and every other column kept. *)
Definition touched (now : Date) (f f' : Formula.t) : Prop :=
  Formula.id f' = Formula.id f
  /\ Formula.groupId f' = Formula.groupId f
  /\ Formula.name f' = Formula.name f
  /\ Formula.expression f' = Formula.expression f
  /\ Formula.description f' = Formula.description f
  /\ Formula.variables f' = Formula.variables f
  /\ Formula.meta f' = Formula.meta f
  /\ Formula.difficulty f' = Formula.difficulty f
  /\ Formula.isActive f' = Formula.isActive f
  /\ Formula.createdAt f' = Formula.createdAt f
  /\ Formula.updatedAt f' = now.

(** [f'] is [f] archived at [now]: inactive, updatedAt refreshed, every other
    column kept. *)
Definition archived_from (now : Date) (f f' : Formula.t) : Prop :=
  Formula.id f' = Formula.id f
  /\ Formula.groupId f' = Formula.groupId f
  /\ Formula.name f' = Formula.name f
  /\ Formula.expression f' = Formula.expression f
  /\ Formula.description f' = Formula.description f
  /\ Formula.variables f' = Formula.variables f
  /\ Formula.meta f' = Formula.meta f
  /\ Formula.difficulty f' = Formula.difficulty f
  /\ Formula.isActive f' = false
  /\ Formula.createdAt f' = Formula.createdAt f
  /\ Formula.updatedAt f' = now.

(** The store after [archiveFormula] has passed its checks. *)
Definition archived_db (now : Date) (formulaId : Z) (db : Db) : Db :=
  mkDb (FormulaGroups db)
    (snd (update_where (fun r => row_id r =? formulaId) (setArchived now)
            (Formulas db)))
    (FormulaExamples db) (UserFormulaState db).

(** [input?.favoritesOnly ?? false] *)
Definition favoritesOnly (input : option ListStatesInput.t) : bool :=
  match input with
  | Some i => ListStatesInput.favoritesOnly i
  | None => false
  end.

(** The rows of [l] that satisfy [keep], in table order and with their
    multiplicity: [items] is exactly that selection. *)
Inductive selection {R} (keep : R -> Prop) : list R -> list R -> Prop :=
| selection_nil : selection keep [] []
| selection_keep r l items :
    keep r -> selection keep l items -> selection keep (r :: l) (r :: items)
| selection_skip r l items :
    ~ keep r -> selection keep l items -> selection keep (r :: l) items.

(** The state row of a (userId, formulaId) pair. *)
Definition state_of (userId : string) (formulaId : Z) (s : UserState.t)
  : Prop :=
  UserState.formulaId s = formulaId /\ UserState.userId s = userId.

(** The row that two identical upserts leave for a pair that had none: the
    supplied fields, the insert defaults for the omitted ones, created at the
    first call and updated at the last. *)
Definition upserted (db : Db) (userId : string) (input : UpsertStateInput.t)
  (created updated : Date) : UserState.t :=
  UserState.mk
    (next_id (UserFormulaState db))
    userId
    (UpsertStateInput.formulaId input)
    (match UpsertStateInput.isFavorite input with
     | Some b => b
     | None => false
     end)
    (UpsertStateInput.note input)
    (match UpsertStateInput.familiarity input with
     | Some k => k
     | None => new
     end)
    created
    updated.

(** C4 as the specification words it: for every signed-in user and every
    formulaId whose pair has no state row yet, two upserts with the same
    input leave exactly one row for the pair. *)
Definition two_upserts_leave_one_row (now1 now2 : Date)
  (input : UpsertStateInput.t) (context : ActionAPIContext) (db : Db)
  : Prop :=
  forall u,
    currentUser context = Some u ->
    (forall s, In s (rows (UserFormulaState db)) ->
       ~ state_of (user_id u) (UpsertStateInput.formulaId input) s) ->
    exists row,
      selection (state_of (user_id u) (UpsertStateInput.formulaId input))
        (rows (UserFormulaState
                 (final (upsertUserFormulaState now2 input context
                           (final (upsertUserFormulaState now1 input context
                                     db))))))
        [row].

(** ** Rows written by the create actions

    The [.values({...})] objects, as functions of the id the table assigns. *)

Definition createdGroup (now : Date) (input : CreateGroupInput.t) (u : User)
  (i : Z) : FormulaGroup.t :=
  FormulaGroup.mk i
    (Some (user_id u))
    (CreateGroupInput.name input)
    (CreateGroupInput.subject input)
    (CreateGroupInput.tags input)
    (CreateGroupInput.description input)
    (CreateGroupInput.slug input)
    (match CreateGroupInput.isActive input with
     | Some b => b
     | None => true
     end)
    now
    now.

Definition createdFormula (now : Date) (input : CreateFormulaInput.t) (i : Z)
  : Formula.t :=
  Formula.mk i
    (CreateFormulaInput.groupId input)
    (CreateFormulaInput.name input)
    (CreateFormulaInput.expression input)
    (CreateFormulaInput.description input)
    (CreateFormulaInput.variables input)
    (CreateFormulaInput.meta input)
    (CreateFormulaInput.difficulty input)
    (match CreateFormulaInput.isActive input with
     | Some b => b
     | None => true
     end)
    now
    now.

Definition createdExample (now : Date) (input : CreateExampleInput.t) (i : Z)
  : FormulaExample.t :=
  FormulaExample.mk i
    (CreateExampleInput.formulaId input)
    (CreateExampleInput.title input)
    (CreateExampleInput.problem input)
    (CreateExampleInput.solution input)
    (CreateExampleInput.data input)
    now.

Definition createdState (now : Date) (input : UpsertStateInput.t) (u : User)
  (i : Z) : UserState.t :=
  UserState.mk i
    (user_id u)
    (UpsertStateInput.formulaId input)
    (match UpsertStateInput.isFavorite input with
     | Some b => b
     | None => false
     end)
    (UpsertStateInput.note input)
    (match UpsertStateInput.familiarity input with
     | Some k => k
     | None => new
     end)
    now
    now.

(** Replacing one table of the database. *)
Definition withFormulaGroups (t : Table FormulaGroup.t) (db : Db) : Db :=
  mkDb t (Formulas db) (FormulaExamples db) (UserFormulaState db).

Definition withFormulas (t : Table Formula.t) (db : Db) : Db :=
  mkDb (FormulaGroups db) t (FormulaExamples db) (UserFormulaState db).

Definition withFormulaExamples (t : Table FormulaExample.t) (db : Db) : Db :=
  mkDb (FormulaGroups db) (Formulas db) t (UserFormulaState db).

Definition withUserFormulaState (t : Table UserState.t) (db : Db) : Db :=
  mkDb (FormulaGroups db) (Formulas db) (FormulaExamples db) t.

(** The table after an insert, after an update of the rows with key [i]. *)
Definition appended {R} `{HasId R} (v : Z -> R) (t : Table R) : Table R :=
  mkTable (rows t ++ [v (next_id t)]) (next_id t).

Definition rewritten {R} `{HasId R} (i : Z) (s : R -> R) (t : Table R)
  : Table R :=
  mkTable (map (fun r => if row_id r =? i then s r else r) (rows t))
    (lastId t).

(** The boolean test of [state_of]. *)
Definition state_ofb (userId : string) (formulaId : Z) (s : UserState.t)
  : bool :=
  (UserState.formulaId s =? formulaId) && String.eqb (UserState.userId s) userId.

(** ** What one call can do to the store

    [Effect db r]: [r] is a possible result of one action call started in
    [db].  A call throws or only reads and leaves the store alone, or it
    returns after exactly one insert or one update, whose side conditions
    record the checks that preceded the write. *)
Inductive Effect (db : Db) : Outcome Response * Db -> Prop :=
| effect_thrown e : Effect db (Thrown e, db)
| effect_read resp : Effect db (Returned resp, db)
| effect_group_inserted resp v :
    (forall i, FormulaGroup.id (v i) = i) ->
    Effect db
      (Returned resp, withFormulaGroups (appended v (FormulaGroups db)) db)
| effect_group_updated resp i s :
    (forall g, FormulaGroup.id (s g) = FormulaGroup.id g
               /\ FormulaGroup.ownerId (s g) = FormulaGroup.ownerId g
               /\ FormulaGroup.createdAt (s g) = FormulaGroup.createdAt g) ->
    Effect db
      (Returned resp, withFormulaGroups (rewritten i s (FormulaGroups db)) db)
| effect_formula_inserted resp v :
    (forall i, Formula.id (v i) = i) ->
    (forall i g, Formula.groupId (v i) = Some g -> findGroup db g <> None) ->
    Effect db (Returned resp, withFormulas (appended v (Formulas db)) db)
| effect_formula_updated resp i s :
    (forall f, Formula.id (s f) = Formula.id f
               /\ Formula.createdAt (s f) = Formula.createdAt f
               /\ (Formula.groupId (s f) = Formula.groupId f
                   \/ exists g, Formula.groupId (s f) = Some g
                                /\ findGroup db g <> None)) ->
    Effect db (Returned resp, withFormulas (rewritten i s (Formulas db)) db)
| effect_example_inserted resp v :
    (forall i, FormulaExample.id (v i) = i) ->
    (forall i, findFormula db (FormulaExample.formulaId (v i)) <> None) ->
    Effect db
      (Returned resp,
       withFormulaExamples (appended v (FormulaExamples db)) db)
| effect_state_inserted resp v :
    (forall i, UserState.id (v i) = i) ->
    (forall i, filter (state_ofb (UserState.userId (v i))
                         (UserState.formulaId (v i)))
                 (rows (UserFormulaState db)) = []) ->
    Effect db
      (Returned resp,
       withUserFormulaState (appended v (UserFormulaState db)) db)
| effect_state_updated resp i s :
    (forall r, UserState.id (s r) = UserState.id r
               /\ UserState.userId (s r) = UserState.userId r
               /\ UserState.formulaId (s r) = UserState.formulaId r
               /\ UserState.createdAt (s r) = UserState.createdAt r) ->
    Effect db
      (Returned resp,
       withUserFormulaState (rewritten i s (UserFormulaState db)) db).

(** ** Invariants of the store *)

(** Primary keys: no two rows of a table share an id. *)
Definition unique_ids {R} `{HasId R} (t : Table R) : Prop :=
  NoDup (map row_id (rows t)).

Definition keys_unique (db : Db) : Prop :=
  unique_ids (FormulaGroups db)
  /\ unique_ids (Formulas db)
  /\ unique_ids (FormulaExamples db)
  /\ unique_ids (UserFormulaState db).

(** Foreign keys the handlers maintain: a formula's groupId names a stored
    group, an example's formulaId names a stored formula. *)
Definition references_valid (db : Db) : Prop :=
  (forall f g,
     In f (rows (Formulas db)) -> Formula.groupId f = Some g ->
     exists gr, In gr (rows (FormulaGroups db)) /\ FormulaGroup.id gr = g)
  /\ (forall e,
        In e (rows (FormulaExamples db)) ->
        exists f, In f (rows (Formulas db))
                  /\ Formula.id f = FormulaExample.formulaId e).

(** At most one state row per (userId, formulaId). *)
Definition one_state_per_pair (db : Db) : Prop :=
  forall userId formulaId,
    (List.length (filter (state_ofb userId formulaId)
                    (rows (UserFormulaState db))) <= 1)%nat.

(** [after] keeps every row of [before], in order and with the same [key],
    and has at most one more at the end. *)
Definition grown {A K} (key : A -> K) (before after : list A) : Prop :=
  exists extra,
    map key after = map key before ++ map key extra
    /\ (List.length extra <= 1)%nat.

(** The columns no action rewrites. *)
Definition group_key (g : FormulaGroup.t) : Z * option string * Date :=
  (FormulaGroup.id g, FormulaGroup.ownerId g, FormulaGroup.createdAt g).

Definition formula_key (f : Formula.t) : Z * Date :=
  (Formula.id f, Formula.createdAt f).

Definition state_key (s : UserState.t) : Z * string * Z * Date :=
  (UserState.id s, UserState.userId s, UserState.formulaId s,
   UserState.createdAt s).

(** [input?.includeInactive ?? false] and the other optional list filters. *)
Definition groupsIncludeInactive (input : option ListGroupsInput.t) : bool :=
  match input with
  | Some i => ListGroupsInput.includeInactive i
  | None => false
  end.

Definition formulasIncludeInactive (input : option ListFormulasInput.t)
  : bool :=
  match input with
  | Some i => ListFormulasInput.includeInactive i
  | None => false
  end.

Definition formulasGroupId (input : option ListFormulasInput.t) : option Z :=
  match input with
  | Some i => ListFormulasInput.groupId i
  | None => None
  end.

Definition formulasDifficulty (input : option ListFormulasInput.t)
  : option Difficulty :=
  match input with
  | Some i => ListFormulasInput.difficulty i
  | None => None
  end.

(** The rows [listFormulas] is to return for [input]. *)
Definition listed (input : option ListFormulasInput.t) (f : Formula.t)
  : Prop :=
  (forall g, formulasGroupId input = Some g -> Formula.groupId f = Some g)
  /\ (forall d, formulasDifficulty input = Some d -> Formula.difficulty f = d)
  /\ (formulasIncludeInactive input = false -> Formula.isActive f = true).

(** The error, if any, of the group check a handler runs when a groupId is
    present. *)
Definition checkGroup (groupId : option Z) (userId : string) (db : Db)
  : option ActionError :=
  match groupId with
  | Some g =>
      match outcome (getOwnedGroup g userId db) with
      | Thrown e => Some e
      | Returned _ => None
      end
  | None => None
  end.

(** The error, if any, of the editability check. *)
Definition checkEditable (formulaId : Z) (userId : string) (db : Db)
  : option ActionError :=
  match outcome (ensureFormulaIsEditable formulaId userId db) with
  | Thrown e => Some e
  | Returned _ => None
  end.

(** The groups [listMyFormulaGroups] is to return to [userId]. *)
Definition my_group (input : option ListGroupsInput.t) (userId : string)
  (g : FormulaGroup.t) : Prop :=
  FormulaGroup.ownerId g = Some userId
  /\ (groupsIncludeInactive input = false -> FormulaGroup.isActive g = true).

(** [s'] is [s] after the partial patch [input] at time [now]. *)
Definition state_patched (now : Date) (input : UpsertStateInput.t)
  (s s' : UserState.t) : Prop :=
  UserState.id s' = UserState.id s
  /\ UserState.userId s' = UserState.userId s
  /\ UserState.formulaId s' = UserState.formulaId s
  /\ kept_or_set (UpsertStateInput.isFavorite input)
       (UserState.isFavorite s) (UserState.isFavorite s')
  /\ kept_or_set_nullable (UpsertStateInput.note input)
       (UserState.note s) (UserState.note s')
  /\ kept_or_set (UpsertStateInput.familiarity input)
       (UserState.familiarity s) (UserState.familiarity s')
  /\ UserState.createdAt s' = UserState.createdAt s
  /\ UserState.updatedAt s' = now.

(** [s] carries every field [input] supplies. *)
Definition carries (input : UpsertStateInput.t) (s : UserState.t) : Prop :=
  (forall b, UpsertStateInput.isFavorite input = Some b ->
             UserState.isFavorite s = b)
  /\ (forall n, UpsertStateInput.note input = Some n ->
                UserState.note s = Some n)
  /\ (forall k, UpsertStateInput.familiarity input = Some k ->
                UserState.familiarity s = k).

(** The error a call ended with, if it threw. *)
Definition thrownError {A} (o : Outcome A) : option ActionError :=
  match o with
  | Thrown e => Some e
  | Returned _ => None
  end.

(** The boolean test of [listed]. *)
Definition listedb (input : option ListFormulasInput.t) (f : Formula.t)
  : bool :=
  match formulasGroupId input with
  | Some g => eq_number (Formula.groupId f) g
  | None => true
  end
  && match formulasDifficulty input with
     | Some d => difficulty_eqb (Formula.difficulty f) d
     | None => true
     end
  && (formulasIncludeInactive input || Bool.eqb (Formula.isActive f) true).

(** ** Basic facts about the store and the resolver *)

Ltac conjuncts := repeat match goal with |- _ /\ _ => split end.

Lemma first_filter {A} (p : A -> bool) (l : list A) :
  first (filter p l) = find p l.
Proof.
  induction l as [|a l IH]; simpl; [reflexivity|].
  destruct (p a); simpl; auto.
Qed.

Lemma find_absent {A} (p : A -> bool) (l : list A) :
  (forall a, In a l -> p a = false) -> find p l = None.
Proof.
  induction l as [|a l IH]; simpl; intros Hn; [reflexivity|].
  rewrite (Hn a (or_introl eq_refl)). apply IH. intros b Hb. apply Hn. now right.
Qed.

Lemma requireUser_signed context u db :
  currentUser context = Some u -> requireUser context db = (Returned u, db).
Proof. unfold requireUser. now intros ->. Qed.

Lemma requireUser_anonymous context db :
  currentUser context = None ->
  requireUser context db = (Thrown unauthorized, db).
Proof. unfold requireUser. now intros ->. Qed.

(** The group check reads one table and decides on the first match. *)
Lemma getOwnedGroup_run groupId userId db :
  getOwnedGroup groupId userId db =
  (match findGroup db groupId with
   | None => Thrown groupNotFound
   | Some g =>
       if truthy (FormulaGroup.ownerId g)
          && strict_ne (FormulaGroup.ownerId g) userId
       then Thrown forbidden
       else Returned g
   end, db).
Proof.
  unfold getOwnedGroup, bind, selectFormulaGroups, select_where, findGroup.
  rewrite first_filter.
  destruct (find _ _) as [g|]; [|reflexivity].
  destruct (truthy _ && strict_ne _ _); reflexivity.
Qed.

Lemma getOwnedGroup_reads groupId userId db :
  final (getOwnedGroup groupId userId db) = db.
Proof. now rewrite getOwnedGroup_run. Qed.

Lemma ensureFormulaIsEditable_run formulaId userId db :
  ensureFormulaIsEditable formulaId userId db =
  (match findFormula db formulaId with
   | None => Thrown formulaNotFound
   | Some f =>
       match Formula.groupId f with
       | None => Returned f
       | Some g =>
           match outcome (getOwnedGroup g userId db) with
           | Returned _ => Returned f
           | Thrown e => Thrown e
           end
       end
   end, db).
Proof.
  unfold ensureFormulaIsEditable, bind at 1.
  unfold selectFormulas, select_where, findFormula.
  rewrite first_filter.
  destruct (find _ _) as [f|]; [|reflexivity].
  destruct (Formula.groupId f) as [g|]; [|reflexivity].
  unfold bind. rewrite getOwnedGroup_run. unfold outcome; simpl.
  destruct (findGroup db g) as [gr|]; [|reflexivity].
  destruct (truthy _ && strict_ne _ _); reflexivity.
Qed.

Lemma ensureFormulaIsEditable_reads formulaId userId db :
  final (ensureFormulaIsEditable formulaId userId db) = db.
Proof. now rewrite ensureFormulaIsEditable_run. Qed.

Lemma owner_gate_closed o userId :
  o <> "" -> o <> userId -> truthy (Some o) && strict_ne (Some o) userId = true.
Proof.
  intros He Hu. simpl.
  apply String.eqb_neq in He. apply String.eqb_neq in Hu.
  now rewrite He, Hu.
Qed.

Lemma owner_gate_open o userId :
  o = None \/ o = Some "" \/ o = Some userId ->
  truthy o && strict_ne o userId = false.
Proof.
  intros [->|[->| ->]]; simpl; try reflexivity.
  rewrite String.eqb_refl. apply andb_false_r.
Qed.

(** ** C1: the ownership chain *)

(** C1, counterexample: group 4 of the sample database has the non-null owner
    [""], which differs from u1, yet [getOwnedGroup 4 "u1"] returns the group:
    the guard [group.ownerId && ...] treats the empty string as no owner. *)
Lemma getOwnedGroup_empty_owner_not_refused :
  ~ refuses_every_foreign_owner Sample.db 4 "u1".
Proof.
  intros H.
  specialize (H (Sample.group 4 (Some "") "Imported") "" eq_refl eq_refl).
  assert (Hne : "" <> "u1") by discriminate.
  specialize (H Hne). vm_compute in H. discriminate H.
Qed.

(** C1 (amended): [getOwnedGroup] throws NOT_FOUND when no group has the id,
    throws FORBIDDEN when the group's owner is non-null, non-empty and not the
    caller, and returns the group when the owner is null, empty or the caller;
    [ensureFormulaIsEditable] throws NOT_FOUND when no formula has the id,
    gives the verdict of [getOwnedGroup] on the formula's group when it has
    one (returning the formula when the group check passes), and returns the
    formula when it has none.  Neither writes to the database. *)
Theorem ownership_chain (db : Db) (groupId formulaId : Z) (userId : string) :
  ((forall g, In g (rows (FormulaGroups db)) -> FormulaGroup.id g <> groupId) ->
   getOwnedGroup groupId userId db = (Thrown groupNotFound, db))
  /\ (forall g o,
        findGroup db groupId = Some g ->
        FormulaGroup.ownerId g = Some o -> o <> "" -> o <> userId ->
        getOwnedGroup groupId userId db = (Thrown forbidden, db))
  /\ (forall g,
        findGroup db groupId = Some g ->
        FormulaGroup.ownerId g = None \/ FormulaGroup.ownerId g = Some ""
        \/ FormulaGroup.ownerId g = Some userId ->
        getOwnedGroup groupId userId db = (Returned g, db))
  /\ ((forall f, In f (rows (Formulas db)) -> Formula.id f <> formulaId) ->
      ensureFormulaIsEditable formulaId userId db
      = (Thrown formulaNotFound, db))
  /\ (forall f g,
        findFormula db formulaId = Some f -> Formula.groupId f = Some g ->
        ensureFormulaIsEditable formulaId userId db
        = (match outcome (getOwnedGroup g userId db) with
           | Returned _ => Returned f
           | Thrown e => Thrown e
           end, db))
  /\ (forall f,
        findFormula db formulaId = Some f -> Formula.groupId f = None ->
        ensureFormulaIsEditable formulaId userId db = (Returned f, db)).
Proof.
  conjuncts.
  - intros Habs. rewrite getOwnedGroup_run. unfold findGroup.
    rewrite find_absent; [reflexivity|].
    intros g Hg. apply Z.eqb_neq. now apply Habs.
  - intros g o Hg Ho He Hu. rewrite getOwnedGroup_run, Hg, Ho.
    now rewrite owner_gate_closed.
  - intros g Hg Ho. rewrite getOwnedGroup_run, Hg.
    now rewrite owner_gate_open.
  - intros Habs. rewrite ensureFormulaIsEditable_run. unfold findFormula.
    rewrite find_absent; [reflexivity|].
    intros f Hf. apply Z.eqb_neq. now apply Habs.
  - intros f g Hf Hg. now rewrite ensureFormulaIsEditable_run, Hf, Hg.
  - intros f Hf Hg. now rewrite ensureFormulaIsEditable_run, Hf, Hg.
Qed.

(** On the sample database. *)
Lemma ownership_chain_witness :
  getOwnedGroup 9 "u1" Sample.db = (Thrown groupNotFound, Sample.db)
  /\ getOwnedGroup 2 "u1" Sample.db = (Thrown forbidden, Sample.db)
  /\ getOwnedGroup 3 "u1" Sample.db
     = (Returned (Sample.group 3 None "Shared"), Sample.db)
  /\ ensureFormulaIsEditable 9 "u1" Sample.db
     = (Thrown formulaNotFound, Sample.db)
  /\ ensureFormulaIsEditable 3 "u1" Sample.db = (Thrown forbidden, Sample.db)
  /\ ensureFormulaIsEditable 2 "u1" Sample.db
     = (Returned (Sample.formula 2 None "E=mc^2"), Sample.db).
Proof.
  destruct (ownership_chain Sample.db 9 9 "u1") as (G0 & _ & _ & F0 & _ & _).
  destruct (ownership_chain Sample.db 2 3 "u1") as (_ & G1 & _ & _ & F1 & _).
  destruct (ownership_chain Sample.db 3 2 "u1") as (_ & _ & G2 & _ & _ & F2).
  conjuncts.
  - apply G0. intros g Hg. simpl in Hg.
    destruct Hg as [<-|[<-|[<-|[<-|[]]]]]; vm_compute; discriminate.
  - apply (G1 (Sample.group 2 (Some "u2") "Calculus") "u2");
      [reflexivity | reflexivity | discriminate | discriminate].
  - apply G2; [reflexivity | left; reflexivity].
  - apply F0. intros f Hf. simpl in Hf.
    destruct Hf as [<-|[<-|[<-|[]]]]; vm_compute; discriminate.
  - apply (F1 (Sample.formula 3 (Some 2) "d/dx") 2); reflexivity.
  - apply F2; reflexivity.
Defined.

(** ** Running the handlers *)

Lemma bind_returned {A B} (m : Async A) (k : A -> Async B) db a db' :
  m db = (Returned a, db') -> bind m k db = k a db'.
Proof. unfold bind. now intros ->. Qed.

Lemma bind_thrown {A B} (m : Async A) (k : A -> Async B) db e db' :
  m db = (Thrown e, db') -> bind m k db = (Thrown e, db').
Proof. unfold bind. now intros ->. Qed.

Lemma outcome_reads {A} (r : Outcome A * Db) db :
  final r = db -> r = (outcome r, db).
Proof. destruct r as [o d]. unfold final, outcome. simpl. now intros ->. Qed.

Lemma getOwnedGroup_eq groupId userId db :
  getOwnedGroup groupId userId db
  = (outcome (getOwnedGroup groupId userId db), db).
Proof. apply outcome_reads, getOwnedGroup_reads. Qed.

Lemma ensureFormulaIsEditable_eq formulaId userId db :
  ensureFormulaIsEditable formulaId userId db
  = (outcome (ensureFormulaIsEditable formulaId userId db), db).
Proof. apply outcome_reads, ensureFormulaIsEditable_reads. Qed.

(** A guarded group check, as the handlers sequence it before a write. *)
Lemma group_gate_thrown {B} g userId (k : Async B) db e :
  outcome (getOwnedGroup g userId db) = Thrown e ->
  ((getOwnedGroup g userId ;;; ret tt) ;;; k) db = (Thrown e, db).
Proof.
  intros He. apply bind_thrown. apply bind_thrown.
  rewrite getOwnedGroup_eq. now rewrite He.
Qed.

Lemma group_gate_returned {B} g userId (k : Async B) db gr :
  outcome (getOwnedGroup g userId db) = Returned gr ->
  ((getOwnedGroup g userId ;;; ret tt) ;;; k) db = k db.
Proof.
  intros He. erewrite bind_returned; [reflexivity|].
  erewrite bind_returned; [reflexivity|].
  rewrite getOwnedGroup_eq. now rewrite He.
Qed.

(** ** C2: moving a formula checks the current location, then the destination *)

(** C2, counterexample: u1 may edit formula 1 and moves it into group 4,
    whose owner is the non-null string [""], not u1; the call does not throw
    FORBIDDEN (it succeeds and rewrites the row). *)
Lemma updateFormula_moves_into_empty_owner_group :
  ~ refuses_move_into_foreign_group 500
      (Sample.moveFormula 1 4)
      (signedIn "u1") Sample.db.
Proof.
  intros H.
  assert (Hne : "" <> "u1") by discriminate.
  specialize (H (mkUser "u1") 4 (Sample.formula 1 (Some 1) "v=u+at")
                (Sample.group 4 (Some "") "Imported") ""
                eq_refl eq_refl eq_refl eq_refl eq_refl Hne).
  vm_compute in H. discriminate H.
Qed.

(** C2 (amended): in an [updateFormula] call that supplies a groupId the edit
    rights on the formula's current location are verified first (a failure
    there is the call's failure), then the destination group; a failure of
    the destination check is the call's failure, and a destination group whose
    owner is non-null, non-empty and not the caller makes the call throw
    FORBIDDEN.  In each failing case the database is left as it was. *)
Theorem updateFormula_checks_destination (now : Date)
  (input : UpdateFormulaInput.t) (context : ActionAPIContext) (db : Db)
  (u : User) (g : Z) :
  currentUser context = Some u ->
  UpdateFormulaInput.groupId input = Some g ->
  (forall e,
     outcome (ensureFormulaIsEditable (UpdateFormulaInput.id input)
                (user_id u) db) = Thrown e ->
     updateFormula now input context db = (Thrown e, db))
  /\ (forall f e,
        outcome (ensureFormulaIsEditable (UpdateFormulaInput.id input)
                   (user_id u) db) = Returned f ->
        outcome (getOwnedGroup g (user_id u) db) = Thrown e ->
        updateFormula now input context db = (Thrown e, db))
  /\ (forall f dest o,
        outcome (ensureFormulaIsEditable (UpdateFormulaInput.id input)
                   (user_id u) db) = Returned f ->
        findGroup db g = Some dest ->
        FormulaGroup.ownerId dest = Some o ->
        o <> "" -> o <> user_id u ->
        updateFormula now input context db = (Thrown forbidden, db)).
Proof.
  intros Hu Hg.
  assert (Hsecond : forall f e,
    outcome (ensureFormulaIsEditable (UpdateFormulaInput.id input)
               (user_id u) db) = Returned f ->
    outcome (getOwnedGroup g (user_id u) db) = Thrown e ->
    updateFormula now input context db = (Thrown e, db)).
  { intros f e Hf He. unfold updateFormula.
    rewrite (bind_returned _ _ _ _ _ (requireUser_signed _ _ _ Hu)).
    erewrite bind_returned;
      [|rewrite ensureFormulaIsEditable_eq, Hf; reflexivity].
    rewrite Hg. now apply group_gate_thrown. }
  conjuncts.
  - intros e He. unfold updateFormula.
    rewrite (bind_returned _ _ _ _ _ (requireUser_signed _ _ _ Hu)).
    apply bind_thrown. rewrite ensureFormulaIsEditable_eq. now rewrite He.
  - exact Hsecond.
  - intros f dest o Hf Hd Ho He Hne. apply (Hsecond f); [exact Hf|].
    rewrite getOwnedGroup_run. unfold outcome. cbn [fst].
    now rewrite Hd, Ho, owner_gate_closed.
Qed.

(** On the sample database. *)
Lemma updateFormula_checks_destination_witness :
  updateFormula 500
    (Sample.moveFormula 3 3)
    (signedIn "u1") Sample.db = (Thrown forbidden, Sample.db)
  /\ updateFormula 500
       (Sample.moveFormula 1 9)
       (signedIn "u1") Sample.db = (Thrown groupNotFound, Sample.db)
  /\ updateFormula 500
       (Sample.moveFormula 1 2)
       (signedIn "u1") Sample.db = (Thrown forbidden, Sample.db).
Proof.
  conjuncts.
  - apply (updateFormula_checks_destination 500 (Sample.moveFormula 3 3)
             (signedIn "u1") Sample.db (mkUser "u1") 3 eq_refl eq_refl).
    reflexivity.
  - apply (updateFormula_checks_destination 500 (Sample.moveFormula 1 9)
             (signedIn "u1") Sample.db (mkUser "u1") 9 eq_refl eq_refl)
      with (f := Sample.formula 1 (Some 1) "v=u+at"); reflexivity.
  - apply (updateFormula_checks_destination 500 (Sample.moveFormula 1 2)
             (signedIn "u1") Sample.db (mkUser "u1") 2 eq_refl eq_refl)
      with (f := Sample.formula 1 (Some 1) "v=u+at")
           (dest := Sample.group 2 (Some "u2") "Calculus") (o := "u2");
      [reflexivity | reflexivity | reflexivity | discriminate | discriminate].
Defined.

(** ** C3: partial updates *)

Lemma update_where_rows {R} `{HasId R} (i : Z) (s : R -> R)
  (patched : R -> R -> Prop) (t : Table R) :
  (forall r, patched r (s r)) ->
  only_row_changed i patched t
    (snd (update_where (fun r => row_id r =? i) s t)).
Proof.
  intros Hs. split; [|reflexivity]. simpl.
  induction (rows t) as [|r l IH]; simpl; constructor; auto.
  destruct (row_id r =? i); auto.
Qed.

Lemma spread_kept_or_set {A} (x : option A) (old : A) :
  kept_or_set x old (spread x old).
Proof. destruct x; reflexivity. Qed.

Lemma spread_nullable_kept_or_set {A} (x : option A) (old : option A) :
  kept_or_set_nullable x old (spread_nullable x old).
Proof. destruct x; reflexivity. Qed.

Create HintDb patch.
#[local] Hint Resolve spread_kept_or_set spread_nullable_kept_or_set : patch.

Lemma setFormulaGroup_patched now input g :
  group_patched now input g (setFormulaGroup now input g).
Proof. unfold group_patched, setFormulaGroup; simpl. conjuncts; auto with patch. Qed.

Lemma setFormula_patched now input f :
  formula_patched now input f (setFormula now input f).
Proof. unfold formula_patched, setFormula; simpl. conjuncts; auto with patch. Qed.

(** What a returning [updateFormulaGroup] call has done. *)
Lemma updateFormulaGroup_returned now input context db resp db' :
  updateFormulaGroup now input context db = (Returned resp, db') ->
  exists u g,
    currentUser context = Some u
    /\ getOwnedGroup (UpdateGroupInput.id input) (user_id u) db
       = (Returned g, db)
    /\ db' = mkDb
               (snd (update_where
                       (fun r => row_id r =? UpdateGroupInput.id input)
                       (setFormulaGroup now input) (FormulaGroups db)))
               (Formulas db) (FormulaExamples db) (UserFormulaState db)
    /\ resp = mkResponse true
                (Some (DataGroup
                   (first (fst (update_where
                       (fun r => row_id r =? UpdateGroupInput.id input)
                       (setFormulaGroup now input) (FormulaGroups db)))))).
Proof.
  unfold updateFormulaGroup. intros Hrun.
  destruct (currentUser context) as [u|] eqn:Hu.
  2:{ rewrite (bind_thrown _ _ _ _ _ (requireUser_anonymous _ _ Hu)) in Hrun.
      discriminate. }
  rewrite (bind_returned _ _ _ _ _ (requireUser_signed _ _ _ Hu)) in Hrun.
  destruct (outcome (getOwnedGroup (UpdateGroupInput.id input) (user_id u) db))
    as [g|e] eqn:Hg.
  2:{ erewrite bind_thrown in Hrun;
        [discriminate | rewrite getOwnedGroup_eq, Hg; reflexivity]. }
  erewrite bind_returned in Hrun;
    [|rewrite getOwnedGroup_eq, Hg; reflexivity].
  exists u, g. split; [reflexivity|].
  split; [now rewrite getOwnedGroup_eq, Hg|].
  unfold bind, updateFormulaGroups, ret in Hrun. simpl in Hrun.
  inversion Hrun. split; reflexivity.
Qed.

(** What a returning [updateFormula] call has done. *)
Lemma updateFormula_returned now input context db resp db' :
  updateFormula now input context db = (Returned resp, db') ->
  exists u f,
    currentUser context = Some u
    /\ ensureFormulaIsEditable (UpdateFormulaInput.id input) (user_id u) db
       = (Returned f, db)
    /\ db' = mkDb (FormulaGroups db)
               (snd (update_where
                       (fun r => row_id r =? UpdateFormulaInput.id input)
                       (setFormula now input) (Formulas db)))
               (FormulaExamples db) (UserFormulaState db)
    /\ resp = mkResponse true
                (Some (DataFormula
                   (first (fst (update_where
                       (fun r => row_id r =? UpdateFormulaInput.id input)
                       (setFormula now input) (Formulas db)))))).
Proof.
  unfold updateFormula. intros Hrun.
  destruct (currentUser context) as [u|] eqn:Hu.
  2:{ rewrite (bind_thrown _ _ _ _ _ (requireUser_anonymous _ _ Hu)) in Hrun.
      discriminate. }
  rewrite (bind_returned _ _ _ _ _ (requireUser_signed _ _ _ Hu)) in Hrun.
  destruct (outcome (ensureFormulaIsEditable (UpdateFormulaInput.id input)
                       (user_id u) db)) as [f|e] eqn:Hf.
  2:{ erewrite bind_thrown in Hrun;
        [discriminate | rewrite ensureFormulaIsEditable_eq, Hf; reflexivity]. }
  erewrite bind_returned in Hrun;
    [|rewrite ensureFormulaIsEditable_eq, Hf; reflexivity].
  exists u, f. split; [reflexivity|].
  split; [now rewrite ensureFormulaIsEditable_eq, Hf|].
  assert (Hk : forall k : Async Response,
    k db = (Returned resp, db') ->
    k = (updated <- updateFormulas
           (fun f0 => Formula.id f0 =? UpdateFormulaInput.id input)
           (setFormula now input) ;;
         ret (mkResponse true (Some (DataFormula (first updated))))) ->
    db' = mkDb (FormulaGroups db)
            (snd (update_where
                    (fun r => row_id r =? UpdateFormulaInput.id input)
                    (setFormula now input) (Formulas db)))
            (FormulaExamples db) (UserFormulaState db)
    /\ resp = mkResponse true
                (Some (DataFormula
                   (first (fst (update_where
                       (fun r => row_id r =? UpdateFormulaInput.id input)
                       (setFormula now input) (Formulas db))))))).
  { intros k Hkrun ->. unfold bind, updateFormulas, ret in Hkrun.
    simpl in Hkrun. inversion Hkrun. split; reflexivity. }
  destruct (UpdateFormulaInput.groupId input) as [g|].
  - destruct (outcome (getOwnedGroup g (user_id u) db)) as [gr|e] eqn:Hg.
    + erewrite group_gate_returned in Hrun by exact Hg.
      eapply Hk; [exact Hrun | reflexivity].
    + erewrite group_gate_thrown in Hrun by exact Hg. discriminate.
  - destruct (Formula.groupId f) as [g|].
    + destruct (outcome (getOwnedGroup g (user_id u) db)) as [gr|e] eqn:Hg.
      * erewrite group_gate_returned in Hrun by exact Hg.
        eapply Hk; [exact Hrun | reflexivity].
      * erewrite group_gate_thrown in Hrun by exact Hg. discriminate.
    + unfold bind at 1 in Hrun. unfold ret at 1 in Hrun.
      eapply Hk; [exact Hrun | reflexivity].
Qed.

Lemma find_update_where {R} `{HasId R} (i : Z) (s : R -> R) (l : list R) :
  (forall r, row_id (s r) = row_id r) ->
  find (fun r => row_id r =? i)
    (map (fun r => if row_id r =? i then s r else r) l)
  = option_map s (find (fun r => row_id r =? i) l).
Proof.
  intros Hid. induction l as [|r l IH]; simpl; [reflexivity|].
  destruct (row_id r =? i) eqn:E.
  - now rewrite Hid, E.
  - now rewrite E.
Qed.

Lemma first_update_where {R} (p : R -> bool) (s : R -> R) (l : list R) :
  first (map s (filter p l)) = option_map s (find p l).
Proof.
  induction l as [|r l IH]; simpl; [reflexivity|].
  destruct (p r); simpl; auto.
Qed.

Lemma getOwnedGroup_returned_found groupId userId db g :
  getOwnedGroup groupId userId db = (Returned g, db) ->
  findGroup db groupId = Some g.
Proof.
  rewrite getOwnedGroup_run. destruct (findGroup db groupId) as [g0|].
  - destruct (truthy _ && strict_ne _ _); intros E; inversion E; reflexivity.
  - discriminate.
Qed.

Lemma ensureFormulaIsEditable_returned_found formulaId userId db f :
  ensureFormulaIsEditable formulaId userId db = (Returned f, db) ->
  findFormula db formulaId = Some f.
Proof.
  rewrite ensureFormulaIsEditable_run.
  destruct (findFormula db formulaId) as [f0|]; [|discriminate].
  destruct (Formula.groupId f0) as [g|].
  - destruct (outcome _); intros E; inversion E; reflexivity.
  - intros E; inversion E; reflexivity.
Qed.

(** C3: after a successful [updateFormulaGroup] (resp. [updateFormula]) the
    row with the input's id has, column by column, the supplied value where
    one was supplied and its prior value where none was, updatedAt is the
    time of the call, id, owner and createdAt are kept; every other row of
    the table and the three other tables are unchanged.  The target row
    exists and its new value is the one returned. *)
Theorem partial_update_frame (now : Date) (context : ActionAPIContext)
  (db db' : Db) (resp : Response) :
  (forall input,
     updateFormulaGroup now input context db = (Returned resp, db') ->
     only_row_changed (UpdateGroupInput.id input) (group_patched now input)
       (FormulaGroups db) (FormulaGroups db')
     /\ Formulas db' = Formulas db
     /\ FormulaExamples db' = FormulaExamples db
     /\ UserFormulaState db' = UserFormulaState db
     /\ exists g g',
          findGroup db (UpdateGroupInput.id input) = Some g
          /\ findGroup db' (UpdateGroupInput.id input) = Some g'
          /\ group_patched now input g g'
          /\ resp = mkResponse true (Some (DataGroup (Some g'))))
  /\ (forall input,
        updateFormula now input context db = (Returned resp, db') ->
        only_row_changed (UpdateFormulaInput.id input)
          (formula_patched now input) (Formulas db) (Formulas db')
        /\ FormulaGroups db' = FormulaGroups db
        /\ FormulaExamples db' = FormulaExamples db
        /\ UserFormulaState db' = UserFormulaState db
        /\ exists f f',
             findFormula db (UpdateFormulaInput.id input) = Some f
             /\ findFormula db' (UpdateFormulaInput.id input) = Some f'
             /\ formula_patched now input f f'
             /\ resp = mkResponse true (Some (DataFormula (Some f')))).
Proof.
  split; intros input Hrun.
  - apply updateFormulaGroup_returned in Hrun
      as (u & g & _ & Hg & -> & ->).
    apply getOwnedGroup_returned_found in Hg.
    conjuncts; try reflexivity.
    + apply (update_where_rows (UpdateGroupInput.id input)
               (setFormulaGroup now input) (group_patched now input)).
      apply setFormulaGroup_patched.
    + exists g, (setFormulaGroup now input g). conjuncts.
      * exact Hg.
      * unfold findGroup in *. simpl.
        pose proof (find_update_where (UpdateGroupInput.id input)
                      (setFormulaGroup now input) (rows (FormulaGroups db))
                      (fun _ => eq_refl)) as E.
        unfold row_id, FormulaGroup_HasId in *. now rewrite E, Hg.
      * apply setFormulaGroup_patched.
      * simpl. rewrite first_update_where.
        unfold findGroup in Hg. unfold row_id, FormulaGroup_HasId.
        now rewrite Hg.
  - apply updateFormula_returned in Hrun as (u & f & _ & Hf & -> & ->).
    apply ensureFormulaIsEditable_returned_found in Hf.
    conjuncts; try reflexivity.
    + apply (update_where_rows (UpdateFormulaInput.id input)
               (setFormula now input) (formula_patched now input)).
      apply setFormula_patched.
    + exists f, (setFormula now input f). conjuncts.
      * exact Hf.
      * unfold findFormula in *. simpl.
        pose proof (find_update_where (UpdateFormulaInput.id input)
                      (setFormula now input) (rows (Formulas db))
                      (fun _ => eq_refl)) as E.
        unfold row_id, Formula_HasId in *. now rewrite E, Hf.
      * apply setFormula_patched.
      * simpl. rewrite first_update_where.
        unfold findFormula in Hf. unfold row_id, Formula_HasId.
        now rewrite Hf.
Qed.

(** On the sample database. *)
Lemma partial_update_frame_witness :
  only_row_changed 1 (group_patched 500 Sample.retag)
    (FormulaGroups Sample.db)
    (FormulaGroups
       (final (updateFormulaGroup 500 Sample.retag (signedIn "u1") Sample.db)))
  /\ only_row_changed 2 (formula_patched 500 Sample.rename)
       (Formulas Sample.db)
       (Formulas
          (final (updateFormula 500 Sample.rename (signedIn "u2") Sample.db))).
Proof.
  split.
  - destruct (partial_update_frame 500 (signedIn "u1") Sample.db
                (final (updateFormulaGroup 500 Sample.retag (signedIn "u1")
                          Sample.db))
                (mkResponse true
                   (Some (DataGroup
                      (findGroup
                         (final (updateFormulaGroup 500 Sample.retag
                                   (signedIn "u1") Sample.db)) 1)))))
      as [Hgroup _].
    apply (Hgroup Sample.retag). reflexivity.
  - destruct (partial_update_frame 500 (signedIn "u2") Sample.db
                (final (updateFormula 500 Sample.rename (signedIn "u2")
                          Sample.db))
                (mkResponse true
                   (Some (DataFormula
                      (findFormula
                         (final (updateFormula 500 Sample.rename
                                   (signedIn "u2") Sample.db)) 2)))))
      as [_ Hformula].
    apply (Hformula Sample.rename). reflexivity.
Defined.

(** ** C7: authentication comes before the ownership lookup *)

(** C7, counterexample: u1 is signed in and is not the owner of group 4,
    whose owner is the non-null string [""]; the update is not refused. *)
Lemma updateFormulaGroup_empty_owner_not_refused :
  ~ refuses_update_by_non_owner 500
      (UpdateGroupInput.mk 4 (Some "Mine") None None None None None)
      (signedIn "u1") Sample.db.
Proof.
  intros H.
  assert (Hne : "" <> "u1") by discriminate.
  specialize (H (mkUser "u1") (Sample.group 4 (Some "") "Imported") ""
                eq_refl eq_refl eq_refl Hne).
  vm_compute in H. discriminate H.
Qed.

(** C7 (amended): with no authenticated user every action of [server] throws
    UNAUTHORIZED whatever the database holds and leaves it untouched, so the
    caller never sees FORBIDDEN; a signed-in caller updating a group whose
    owner is non-null, non-empty and not the caller gets FORBIDDEN, nothing
    written. *)
Theorem unauthorized_before_forbidden (now : Date) (db : Db) :
  (forall a context,
     currentUser context = None ->
     server now a context db = (Thrown unauthorized, db))
  /\ (forall input context u g o,
        currentUser context = Some u ->
        findGroup db (UpdateGroupInput.id input) = Some g ->
        FormulaGroup.ownerId g = Some o ->
        o <> "" -> o <> user_id u ->
        updateFormulaGroup now input context db = (Thrown forbidden, db)).
Proof.
  split.
  - intros a context Hu.
    destruct a; simpl; apply bind_thrown; now apply requireUser_anonymous.
  - intros input context u g o Hu Hg Ho He Hne. unfold updateFormulaGroup.
    rewrite (bind_returned _ _ _ _ _ (requireUser_signed _ _ _ Hu)).
    apply bind_thrown. rewrite getOwnedGroup_run, Hg, Ho.
    now rewrite owner_gate_closed.
Qed.

(** On the sample database. *)
Lemma unauthorized_before_forbidden_witness :
  server 500 (UpdateFormulaGroup Sample.retag) anonymous Sample.db
  = (Thrown unauthorized, Sample.db)
  /\ updateFormulaGroup 500 Sample.retag (signedIn "u2") Sample.db
     = (Thrown forbidden, Sample.db).
Proof.
  destruct (unauthorized_before_forbidden 500 Sample.db) as [Hanon Hforeign].
  split.
  - apply Hanon. reflexivity.
  - apply (Hforeign Sample.retag (signedIn "u2") (mkUser "u2")
             (Sample.group 1 (Some "u1") "Kinematics") "u1");
      [reflexivity | reflexivity | reflexivity | discriminate | discriminate].
Defined.

(** ** C6: the response envelope *)

Lemma returns_bind {A B} (m : Async A) (k : A -> Async B) (Q : B -> Prop) :
  (forall a, returns (k a) Q) -> returns (bind m k) Q.
Proof.
  intros Hk db b db'. unfold bind.
  destruct (m db) as [[a|e] db1]; [apply Hk | discriminate].
Qed.

Lemma returns_ret {A} (a : A) (Q : A -> Prop) : Q a -> returns (ret a) Q.
Proof. intros Ha db b db' E. inversion E. now subst. Qed.

Ltac envelope :=
  repeat (apply returns_bind; intros);
  try match goal with
      | |- returns (match ?x with _ => _ end) _ => destruct x
      end;
  repeat (apply returns_bind; intros);
  apply returns_ret; simpl; eauto.

(** C6, counterexample: u1 archives formula 1; the call succeeds and the
    returned object is [{ success: true }], without a [data] key. *)
Lemma archiveFormula_returns_no_data :
  ~ uniform_envelope 500 (ArchiveFormula (ArchiveFormulaInput.mk 1))
      (signedIn "u1") Sample.db.
Proof.
  intros H.
  destruct (H (mkResponse true None) _ eq_refl) as [_ [d Hd]].
  discriminate Hd.
Qed.

(** C6 (amended): every action of [server], when it succeeds, returns
    [success = true]; every action other than [archiveFormula] also returns a
    [data] object, while [archiveFormula] returns no [data]. *)
Theorem success_envelope (now : Date) (a : Action)
  (context : ActionAPIContext) (db db' : Db) (resp : Response) :
  server now a context db = (Returned resp, db') ->
  success resp = true
  /\ match a with
     | ArchiveFormula _ => data resp = None
     | _ => exists d, data resp = Some d
     end.
Proof.
  revert db resp db'.
  change (returns (server now a context)
            (fun resp => success resp = true
               /\ match a with
                  | ArchiveFormula _ => data resp = None
                  | _ => exists d, data resp = Some d
                  end)).
  destruct a; simpl;
    [ unfold createFormulaGroup | unfold updateFormulaGroup
    | unfold listMyFormulaGroups | unfold createFormula
    | unfold updateFormula | unfold archiveFormula | unfold listFormulas
    | unfold createFormulaExample | unfold listFormulaExamples
    | unfold upsertUserFormulaState | unfold listUserFormulaStates ];
    envelope.
Qed.

(** On the sample database. *)
Lemma success_envelope_witness :
  (success (mkResponse true None) = true /\ data (mkResponse true None) = None)
  /\ exists resp,
       outcome (server 500 (UpdateFormulaGroup Sample.retag) (signedIn "u1")
                  Sample.db) = Returned resp
       /\ success resp = true /\ exists d, data resp = Some d.
Proof.
  split.
  - apply (success_envelope 500 (ArchiveFormula (ArchiveFormulaInput.mk 1))
             (signedIn "u1") Sample.db _ _ eq_refl).
  - eexists. split; [vm_compute; reflexivity|].
    eapply (success_envelope 500 (UpdateFormulaGroup Sample.retag)
              (signedIn "u1") Sample.db).
    vm_compute. reflexivity.
Defined.

(** ** C5: archiving *)

Lemma setArchived_archived_from now f : archived_from now f (setArchived now f).
Proof. unfold archived_from, setArchived; simpl. conjuncts; reflexivity. Qed.

Lemma archived_from_touched now f f' :
  Formula.isActive f = false -> archived_from now f f' -> touched now f f'.
Proof.
  unfold archived_from, touched. intros Hf H.
  rewrite Hf. exact H.
Qed.

Lemma archiveFormula_run now input context db u f :
  currentUser context = Some u ->
  ensureFormulaIsEditable (ArchiveFormulaInput.id input) (user_id u) db
  = (Returned f, db) ->
  archiveFormula now input context db
  = (Returned (mkResponse true None),
     archived_db now (ArchiveFormulaInput.id input) db).
Proof.
  intros Hu Hf. unfold archiveFormula.
  rewrite (bind_returned _ _ _ _ _ (requireUser_signed _ _ _ Hu)).
  rewrite (bind_returned _ _ _ _ _ Hf). reflexivity.
Qed.

Lemma update_where_again {R} (p : R -> bool) (s1 s2 : R -> R) (t : Table R) :
  (forall r, p (s1 r) = p r) ->
  (forall r, s2 (s1 r) = s2 r) ->
  snd (update_where p s2 (snd (update_where p s1 t)))
  = snd (update_where p s2 t).
Proof.
  intros Hp Hs. unfold update_where; simpl. f_equal.
  rewrite map_map. apply map_ext. intros r.
  destruct (p r) eqn:E.
  - now rewrite Hp, E, Hs.
  - now rewrite E.
Qed.

Lemma archived_db_again now1 now2 formulaId db :
  archived_db now2 formulaId (archived_db now1 formulaId db)
  = archived_db now2 formulaId db.
Proof.
  unfold archived_db; simpl. f_equal.
  apply (update_where_again (fun r => row_id r =? formulaId)
           (setArchived now1) (setArchived now2)); reflexivity.
Qed.

(** Archiving keeps the verdict of the editability check. *)
Lemma archived_db_still_editable now formulaId userId db f :
  ensureFormulaIsEditable formulaId userId db = (Returned f, db) ->
  ensureFormulaIsEditable formulaId userId (archived_db now formulaId db)
  = (Returned (setArchived now f), archived_db now formulaId db).
Proof.
  intros Hf. pose proof (ensureFormulaIsEditable_returned_found _ _ _ _ Hf) as Hfound.
  rewrite ensureFormulaIsEditable_run in Hf. rewrite Hfound in Hf.
  rewrite ensureFormulaIsEditable_run.
  assert (E : findFormula (archived_db now formulaId db) formulaId
              = Some (setArchived now f)).
  { unfold findFormula in *. simpl.
    pose proof (find_update_where formulaId (setArchived now)
                  (rows (Formulas db)) (fun _ => eq_refl)) as E.
    unfold row_id, Formula_HasId in *. now rewrite E, Hfound. }
  rewrite E. simpl Formula.groupId.
  destruct (Formula.groupId f) as [g|]; [|reflexivity].
  rewrite getOwnedGroup_run in *. unfold outcome in *. simpl fst in *.
  change (findGroup (archived_db now formulaId db) g) with (findGroup db g).
  destruct (findGroup db g) as [gr|]; [|discriminate].
  destruct (truthy _ && strict_ne _ _); [discriminate | reflexivity].
Qed.

(** C5: when the caller may edit the formula, [archiveFormula] succeeds; the
    row with that id becomes inactive with updatedAt the time of the call and
    every other column kept, no row is removed or added, all other rows and
    tables are unchanged; a row that was already archived changes in
    updatedAt only; and archiving a second time succeeds and gives the state
    that archiving once at the later time gives. *)
Theorem archiveFormula_idempotent (now : Date) (input : ArchiveFormulaInput.t)
  (context : ActionAPIContext) (db : Db) (u : User) (f : Formula.t) :
  currentUser context = Some u ->
  ensureFormulaIsEditable (ArchiveFormulaInput.id input) (user_id u) db
  = (Returned f, db) ->
  exists db',
    archiveFormula now input context db = (Returned (mkResponse true None), db')
    /\ only_row_changed (ArchiveFormulaInput.id input) (archived_from now)
         (Formulas db) (Formulas db')
    /\ map Formula.id (rows (Formulas db'))
       = map Formula.id (rows (Formulas db))
    /\ FormulaGroups db' = FormulaGroups db
    /\ FormulaExamples db' = FormulaExamples db
    /\ UserFormulaState db' = UserFormulaState db
    /\ only_row_changed (ArchiveFormulaInput.id input)
         (fun r r' => Formula.isActive r = false -> touched now r r')
         (Formulas db) (Formulas db')
    /\ forall now2,
         exists db'',
           archiveFormula now2 input context db'
           = (Returned (mkResponse true None), db'')
           /\ only_row_changed (ArchiveFormulaInput.id input) (touched now2)
                (Formulas db') (Formulas db'')
           /\ db'' = final (archiveFormula now2 input context db).
Proof.
  intros Hu Hf.
  exists (archived_db now (ArchiveFormulaInput.id input) db).
  assert (Hrows : forall t, only_row_changed (ArchiveFormulaInput.id input)
                    (archived_from t) (Formulas db)
                    (Formulas (archived_db t (ArchiveFormulaInput.id input) db))).
  { intros t. apply (update_where_rows (ArchiveFormulaInput.id input)
                       (setArchived t) (archived_from t)).
    apply setArchived_archived_from. }
  conjuncts; try reflexivity.
  - now apply (archiveFormula_run now input context db u f).
  - apply Hrows.
  - simpl. rewrite map_map. apply map_ext. intros r.
    now destruct (row_id r =? ArchiveFormulaInput.id input).
  - destruct (Hrows now) as [Hall Hlast]. split; [|exact Hlast].
    eapply Forall2_impl; [|exact Hall]. intros r r'; simpl.
    destruct (row_id r =? ArchiveFormulaInput.id input); [|trivial].
    intros Ha Hr. now apply archived_from_touched.
  - intros now2.
    exists (archived_db now2 (ArchiveFormulaInput.id input)
              (archived_db now (ArchiveFormulaInput.id input) db)).
    conjuncts.
    + apply (archiveFormula_run now2 input context _ u (setArchived now f));
        [exact Hu | now apply archived_db_still_editable].
    + split; [|reflexivity]. simpl.
      induction (rows (Formulas db)) as [|r l IH]; simpl; constructor; auto.
      destruct (row_id r =? ArchiveFormulaInput.id input) eqn:E.
      * change (row_id (setArchived now r)) with (row_id r). rewrite E.
        unfold touched, setArchived; simpl. conjuncts; reflexivity.
      * now rewrite E.
    + rewrite archived_db_again.
      now rewrite (archiveFormula_run now2 input context db u f).
Qed.

(** On the sample database. *)
Lemma archiveFormula_idempotent_witness :
  exists db',
    archiveFormula 500 (ArchiveFormulaInput.mk 1) (signedIn "u1") Sample.db
    = (Returned (mkResponse true None), db')
    /\ only_row_changed 1 (archived_from 500)
         (Formulas Sample.db) (Formulas db')
    /\ exists db'',
         archiveFormula 600 (ArchiveFormulaInput.mk 1) (signedIn "u1") db'
         = (Returned (mkResponse true None), db'')
         /\ only_row_changed 1 (touched 600) (Formulas db') (Formulas db'').
Proof.
  destruct (archiveFormula_idempotent 500 (ArchiveFormulaInput.mk 1)
              (signedIn "u1") Sample.db (mkUser "u1")
              (Sample.formula 1 (Some 1) "v=u+at") eq_refl eq_refl)
    as (db' & Hrun & Hrows & _ & _ & _ & _ & _ & Hagain).
  exists db'. split; [exact Hrun|]. split; [exact Hrows|].
  destruct (Hagain 600) as (db'' & Hrun2 & Hrows2 & _).
  exists db''. split; assumption.
Defined.

(** ** C8: formulas outside any group *)



(** ** C9 and C10: listings *)

Lemma filter_selection {R} (p : R -> bool) (keep : R -> Prop) (l : list R) :
  (forall r, p r = true <-> keep r) -> selection keep l (filter p l).
Proof.
  intros Hp. induction l as [|r l IH]; simpl; [constructor|].
  destruct (p r) eqn:E.
  - apply selection_keep; [now apply Hp | exact IH].
  - apply selection_skip; [|exact IH].
    intros Hk. apply Hp in Hk. congruence.
Qed.

Lemma selection_In {R} (keep : R -> Prop) (l items : list R) :
  selection keep l items -> forall r, In r items <-> In r l /\ keep r.
Proof.
  induction 1 as [|r0 l items Hk Hs IH|r0 l items Hk Hs IH]; intros r; simpl.
  - tauto.
  - rewrite IH. split.
    + intros [<-|[Hin Hr]]; auto.
    + intros [[<-|Hin] Hr]; auto.
  - rewrite IH. split.
    + intros [Hin Hr]; auto.
    + intros [[<-|Hin] Hr]; [contradiction | auto].
Qed.

(** C9: for a signed-in caller [listFormulaExamples] always succeeds, whether
    or not a formula with the given id exists: [items] is exactly the
    selection of the examples whose formulaId is the given one (hence empty
    when there are none), [total] is their number, and nothing is written. *)
Theorem listFormulaExamples_never_not_found (input : ListExamplesInput.t)
  (context : ActionAPIContext) (db : Db) (u : User) :
  currentUser context = Some u ->
  exists items,
    listFormulaExamples input context db
    = (Returned
         (mkResponse true (Some (DataExamples items (List.length items)))),
       db)
    /\ selection
         (fun e => FormulaExample.formulaId e = ListExamplesInput.formulaId input)
         (rows (FormulaExamples db)) items
    /\ (forall e,
          In e items <->
          In e (rows (FormulaExamples db))
          /\ FormulaExample.formulaId e = ListExamplesInput.formulaId input)
    /\ ((forall e, In e (rows (FormulaExamples db)) ->
           FormulaExample.formulaId e <> ListExamplesInput.formulaId input) ->
        items = []).
Proof.
  intros Hu.
  assert (Hsel : selection
            (fun e => FormulaExample.formulaId e
                      = ListExamplesInput.formulaId input)
            (rows (FormulaExamples db))
            (filter (fun e => FormulaExample.formulaId e
                              =? ListExamplesInput.formulaId input)
               (rows (FormulaExamples db)))).
  { apply filter_selection. intros e. apply Z.eqb_eq. }
  set (items := filter _ _) in Hsel. exists items. conjuncts.
  - unfold listFormulaExamples.
    rewrite (bind_returned _ _ _ _ _ (requireUser_signed _ _ _ Hu)).
    reflexivity.
  - exact Hsel.
  - apply (selection_In _ _ _ Hsel).
  - intros Hnone. pose proof (selection_In _ _ _ Hsel) as Hin.
    destruct items as [|e l]; [reflexivity|].
    destruct (proj1 (Hin e) (or_introl eq_refl)) as [He Hid].
    now apply Hnone in He.
Qed.

(** On the sample database. *)
Lemma listFormulaExamples_never_not_found_witness :
  exists items,
    listFormulaExamples (ListExamplesInput.mk 77) (signedIn "u2") Sample.db
    = (Returned
         (mkResponse true (Some (DataExamples items (List.length items)))),
       Sample.db)
    /\ items = [].
Proof.
  destruct (listFormulaExamples_never_not_found (ListExamplesInput.mk 77)
              (signedIn "u2") Sample.db (mkUser "u2") eq_refl)
    as (items & Hrun & _ & _ & Hempty).
  exists items. split; [exact Hrun|].
  apply Hempty. intros e He. simpl in He.
  destruct He as [<-|[<-|[<-|[]]]]; vm_compute; discriminate.
Defined.

(** C10: for a signed-in caller [listUserFormulaStates] succeeds with [items]
    exactly the selection of the state rows whose userId is the caller's id
    and, when favoritesOnly is set, whose isFavorite is true; [total] is their
    number; no row of another user is returned; nothing is written. *)
Theorem listUserFormulaStates_own_rows (input : option ListStatesInput.t)
  (context : ActionAPIContext) (db : Db) (u : User) :
  currentUser context = Some u ->
  exists items,
    listUserFormulaStates input context db
    = (Returned
         (mkResponse true (Some (DataStates items (List.length items)))),
       db)
    /\ selection
         (fun s => UserState.userId s = user_id u
                   /\ (favoritesOnly input = true ->
                       UserState.isFavorite s = true))
         (rows (UserFormulaState db)) items
    /\ (forall s, In s items -> UserState.userId s = user_id u)
    /\ (forall s,
          In s items <->
          In s (rows (UserFormulaState db))
          /\ UserState.userId s = user_id u
          /\ (favoritesOnly input = true -> UserState.isFavorite s = true)).
Proof.
  intros Hu.
  set (keep := fun s => UserState.userId s = user_id u
                        /\ (favoritesOnly input = true ->
                            UserState.isFavorite s = true)).
  set (filters :=
         if favoritesOnly input
         then [fun s => String.eqb (UserState.userId s) (user_id u)]
              ++ [fun s => Bool.eqb (UserState.isFavorite s) true]
         else [fun s => String.eqb (UserState.userId s) (user_id u)]).
  assert (Hsel : selection keep (rows (UserFormulaState db))
                   (filter (and_ filters) (rows (UserFormulaState db)))).
  { apply filter_selection. intros s. unfold filters, keep, and_.
    destruct (favoritesOnly input); simpl;
      rewrite ?andb_true_r, ?andb_true_iff, ?String.eqb_eq, ?Bool.eqb_true_iff;
      intuition congruence. }
  exists (filter (and_ filters) (rows (UserFormulaState db))). conjuncts.
  - unfold listUserFormulaStates.
    rewrite (bind_returned _ _ _ _ _ (requireUser_signed _ _ _ Hu)).
    unfold filters, favoritesOnly.
    destruct input as [i|]; reflexivity.
  - exact Hsel.
  - intros s Hs. apply (selection_In _ _ _ Hsel) in Hs. apply Hs.
  - apply (selection_In _ _ _ Hsel).
Qed.

(** On the sample database. *)
Lemma listUserFormulaStates_own_rows_witness :
  exists items,
    listUserFormulaStates (Some (ListStatesInput.mk true)) (signedIn "u1")
      Sample.db
    = (Returned
         (mkResponse true (Some (DataStates items (List.length items)))),
       Sample.db)
    /\ forall s, In s items -> UserState.userId s = "u1".
Proof.
  destruct (listUserFormulaStates_own_rows (Some (ListStatesInput.mk true))
              (signedIn "u1") Sample.db (mkUser "u1") eq_refl)
    as (items & Hrun & _ & Hown & _).
  exists items. split; [exact Hrun | exact Hown].
Defined.

(** ** C4: upserting the per-user state *)

Lemma filter_none {A} (p : A -> bool) (l : list A) :
  (forall a, In a l -> p a = false) -> filter p l = [].
Proof.
  induction l as [|a l IH]; simpl; intros Hn; [reflexivity|].
  rewrite (Hn a (or_introl eq_refl)). apply IH. intros b Hb. apply Hn. now right.
Qed.

(** An auto-increment id is larger than every id in the table. *)
Lemma next_id_fresh {R} `{HasId R} (t : Table R) (r : R) :
  In r (rows t) -> row_id r < next_id t.
Proof.
  unfold next_id. generalize (lastId t). intros z.
  induction (rows t) as [|a l IH]; cbn [fold_right map In]; [tauto|].
  intros [<-|Hin]; [lia|]. specialize (IH Hin). lia.
Qed.

Lemma map_untouched {A} (p : A -> bool) (s : A -> A) (l : list A) :
  (forall a, In a l -> p a = false) ->
  map (fun a => if p a then s a else a) l = l.
Proof.
  induction l as [|a l IH]; simpl; intros Hn; [reflexivity|].
  rewrite (Hn a (or_introl eq_refl)). f_equal. apply IH.
  intros b Hb. apply Hn. now right.
Qed.

Lemma state_of_dec userId formulaId (s : UserState.t) :
  (UserState.formulaId s =? formulaId) && String.eqb (UserState.userId s) userId
  = true <-> state_of userId formulaId s.
Proof.
  unfold state_of. now rewrite andb_true_iff, Z.eqb_eq, String.eqb_eq.
Qed.

Lemma filter_map_stable {A} (p : A -> bool) (g : A -> A) (l : list A) :
  (forall a, p (g a) = p a) -> filter p (map g l) = map g (filter p l).
Proof.
  intros Hp. induction l as [|a l IH]; simpl; [reflexivity|].
  rewrite Hp. destruct (p a); simpl; now rewrite IH.
Qed.

(** The state insert, run: stored when the formula is there, refused with
    the store untouched when it is not. *)
Lemma insertUserFormulaState_stored v db :
  findFormula db (UserState.formulaId (v (next_id (UserFormulaState db))))
  <> None ->
  insertUserFormulaState v db
  = (Returned [v (next_id (UserFormulaState db))],
     withUserFormulaState (appended v (UserFormulaState db)) db).
Proof.
  unfold insertUserFormulaState, findFormula. intros Hf.
  destruct (find _ (rows (Formulas db))); [reflexivity | congruence].
Qed.

Lemma insertUserFormulaState_refused v db :
  findFormula db (UserState.formulaId (v (next_id (UserFormulaState db))))
  = None ->
  insertUserFormulaState v db = (Thrown foreignKeyFailed, db).
Proof.
  unfold insertUserFormulaState, findFormula. now intros ->.
Qed.

(** One upsert for a stored formula gives a pair its first row and never a
    second one: the number of rows of the caller's pair goes from 0 to 1 and
    otherwise stays. *)
Lemma upsert_pair_count now input context db u :
  currentUser context = Some u ->
  findFormula db (UpsertStateInput.formulaId input) <> None ->
  let mine := fun s : UserState.t =>
    (UserState.formulaId s =? UpsertStateInput.formulaId input)
    && String.eqb (UserState.userId s) (user_id u) in
  List.length
    (filter mine
       (rows (UserFormulaState
                (final (upsertUserFormulaState now input context db)))))
  = Nat.max 1 (List.length (filter mine (rows (UserFormulaState db)))).
Proof.
  intros Hu Hformula mine. unfold upsertUserFormulaState.
  rewrite (bind_returned _ _ _ _ _ (requireUser_signed _ _ _ Hu)).
  unfold bind at 1, selectUserFormulaState, select_where. fold mine.
  destruct (filter mine (rows (UserFormulaState db))) as [|s0 l] eqn:E.
  - cbn [first hd_error].
    erewrite bind_returned
      by (apply insertUserFormulaState_stored; exact Hformula).
    unfold ret, final.
    cbn [snd withUserFormulaState appended UserFormulaState rows].
    rewrite filter_app, E. cbn [filter app]. unfold mine at 1.
    cbn [UserState.formulaId UserState.userId].
    now rewrite Z.eqb_refl, String.eqb_refl.
  - cbn [first hd_error]. unfold bind, updateUserFormulaState, ret, final.
    cbn [update_where snd UserFormulaState rows].
    rewrite filter_map_stable.
    + rewrite length_map, E. reflexivity.
    + intros s. now destruct (UserState.id s =? UserState.id s0).
Qed.

Lemma setUserState_upserted db userId input now1 now2 :
  setUserState now2 input (upserted db userId input now1 now1)
  = upserted db userId input now1 now2.
Proof.
  unfold setUserState, upserted; simpl.
  destruct (UpsertStateInput.isFavorite input),
           (UpsertStateInput.note input),
           (UpsertStateInput.familiarity input); reflexivity.
Qed.

(** C4, counterexample: u1 has no state row for formula 99 and no formula 99
    is stored; both upserts are refused by the store (the formulaId column
    references Formulas.id) and the pair is left without any row. *)
Lemma upsert_twice_orphan_leaves_no_row :
  ~ two_upserts_leave_one_row 500 600 Sample.orphan (signedIn "u1") Sample.db.
Proof.
  intros H.
  destruct (H (mkUser "u1") eq_refl) as [row Hsel].
  - intros s Hs [Hf _]. simpl in Hs.
    destruct Hs as [<-|[<-|[<-|[]]]]; discriminate Hf.
  - destruct (proj1 (selection_In _ _ _ Hsel row) (or_introl eq_refl))
      as [Hin [Hf _]].
    vm_compute in Hin.
    destruct Hin as [<-|[<-|[<-|[]]]]; discriminate Hf.
Qed.

(** C4 (amended): for a signed-in user whose pair (userId, formulaId) has no
    state row: when a formula with that id is stored, two
    [upsertUserFormulaState] calls with the same input both succeed; the
    first appends one row, the second rewrites that row in place; afterwards
    the pair has exactly one row, holding the supplied fields and, for the
    omitted ones, the insert defaults (isFavorite false, note null,
    familiarity "new"), createdAt from the first call and updatedAt from the
    second; all other rows and tables are unchanged.  When no formula with
    that id is stored, the call fails at the insert with the store's
    foreign-key error and writes nothing, however often it is made. *)
Theorem upsert_twice_one_row (now1 now2 : Date) (input : UpsertStateInput.t)
  (context : ActionAPIContext) (db : Db) (u : User) :
  currentUser context = Some u ->
  (forall s, In s (rows (UserFormulaState db)) ->
     ~ state_of (user_id u) (UpsertStateInput.formulaId input) s) ->
  (findFormula db (UpsertStateInput.formulaId input) <> None ->
   exists db1 db2,
     upsertUserFormulaState now1 input context db
     = (Returned
          (mkResponse true
             (Some (DataState
                (Some (upserted db (user_id u) input now1 now1))))),
        db1)
     /\ rows (UserFormulaState db1)
        = rows (UserFormulaState db)
          ++ [upserted db (user_id u) input now1 now1]
     /\ upsertUserFormulaState now2 input context db1
        = (Returned
             (mkResponse true
                (Some (DataState
                   (Some (upserted db (user_id u) input now1 now2))))),
           db2)
     /\ rows (UserFormulaState db2)
        = rows (UserFormulaState db)
          ++ [upserted db (user_id u) input now1 now2]
     /\ selection (state_of (user_id u) (UpsertStateInput.formulaId input))
          (rows (UserFormulaState db2))
          [upserted db (user_id u) input now1 now2]
     /\ FormulaGroups db2 = FormulaGroups db
     /\ Formulas db2 = Formulas db
     /\ FormulaExamples db2 = FormulaExamples db)
  /\ (findFormula db (UpsertStateInput.formulaId input) = None ->
      forall now,
        thrownCode (outcome (upsertUserFormulaState now input context db))
        = Some SQLITE_CONSTRAINT_FOREIGNKEY
        /\ final (upsertUserFormulaState now input context db) = db).
Proof.
  intros Hu Hnone.
  set (t := UserFormulaState db).
  set (pairp := fun s : UserState.t =>
         (UserState.formulaId s =? UpsertStateInput.formulaId input)
         && String.eqb (UserState.userId s) (user_id u)).
  assert (Hfilter : filter pairp (rows t) = []).
  { apply filter_none. intros s Hs. destruct (pairp s) eqn:E; [|reflexivity].
    apply state_of_dec in E. now apply Hnone in E. }
  assert (Hpair : forall a b,
            pairp (upserted db (user_id u) input a b) = true).
  { intros a b. unfold pairp, upserted; simpl.
    now rewrite Z.eqb_refl, String.eqb_refl. }
  assert (Hfresh : forall s, In s (rows t) ->
            (UserState.id s =? next_id t) = false).
  { intros s Hs. apply Z.eqb_neq.
    pose proof (next_id_fresh t s Hs) as Hlt.
    change (UserState.id s < next_id t) in Hlt. lia. }
  split.
  2:{ intros Hmissing now.
      assert (Hrun : upsertUserFormulaState now input context db
                     = (Thrown foreignKeyFailed, db)).
      { unfold upsertUserFormulaState.
        rewrite (bind_returned _ _ _ _ _ (requireUser_signed _ _ _ Hu)).
        unfold bind at 1, selectUserFormulaState, select_where.
        fold t. fold pairp. rewrite Hfilter. cbn [first hd_error].
        apply bind_thrown. apply insertUserFormulaState_refused.
        exact Hmissing. }
      rewrite Hrun. split; reflexivity. }
  intros Hformula.
  exists (mkDb (FormulaGroups db) (Formulas db) (FormulaExamples db)
            (mkTable (rows t ++ [upserted db (user_id u) input now1 now1])
               (next_id t))).
  exists (mkDb (FormulaGroups db) (Formulas db) (FormulaExamples db)
            (mkTable (rows t ++ [upserted db (user_id u) input now1 now2])
               (next_id t))).
  conjuncts; try reflexivity.
  - unfold upsertUserFormulaState.
    rewrite (bind_returned _ _ _ _ _ (requireUser_signed _ _ _ Hu)).
    unfold bind at 1, selectUserFormulaState, select_where.
    fold t. fold pairp. rewrite Hfilter. cbn [first hd_error].
    erewrite bind_returned
      by (apply insertUserFormulaState_stored; exact Hformula).
    reflexivity.
  - unfold upsertUserFormulaState.
    rewrite (bind_returned _ _ _ _ _ (requireUser_signed _ _ _ Hu)).
    unfold bind at 1, selectUserFormulaState, select_where.
    cbn [UserFormulaState rows]. fold pairp.
    rewrite filter_app, Hfilter. cbn [filter app]. rewrite Hpair.
    cbn [first hd_error].
    unfold bind, updateUserFormulaState, update_where, ret.
    cbn [UserFormulaState rows lastId FormulaGroups Formulas FormulaExamples].
    change (UserState.id (upserted db (user_id u) input now1 now1))
      with (next_id t).
    rewrite filter_app, !map_app.
    rewrite (filter_none _ (rows t)) by exact Hfresh.
    rewrite (map_untouched _ _ (rows t)) by exact Hfresh.
    cbn [filter map app].
    change (UserState.id (upserted db (user_id u) input now1 now1))
      with (next_id t).
    rewrite Z.eqb_refl. cbn [map first hd_error].
    now rewrite setUserState_upserted.
  - cbn [UserFormulaState rows]. fold t.
    assert (Hsel : selection
              (state_of (user_id u) (UpsertStateInput.formulaId input))
              (rows t ++ [upserted db (user_id u) input now1 now2])
              (filter pairp
                 (rows t ++ [upserted db (user_id u) input now1 now2]))).
    { apply filter_selection. intros s. apply state_of_dec. }
    rewrite filter_app, Hfilter in Hsel. cbn [filter app] in Hsel.
    now rewrite Hpair in Hsel.
Qed.

(** On the sample database. *)
Lemma upsert_twice_one_row_witness :
  selection (state_of "u2" 2)
    (rows (UserFormulaState
             (final (upsertUserFormulaState 600 Sample.favourite
                       (signedIn "u2")
                       (final (upsertUserFormulaState 500 Sample.favourite
                                 (signedIn "u2") Sample.db))))))
    [UserState.mk 4 "u2" 2 true None new 500 600]
  /\ final (upsertUserFormulaState 500 Sample.orphan (signedIn "u1")
              Sample.db) = Sample.db.
Proof.
  split.
  - destruct (upsert_twice_one_row 500 600 Sample.favourite (signedIn "u2")
                Sample.db (mkUser "u2") eq_refl) as [Hstored _].
    + intros s Hs [Hf Hu]. simpl in Hs.
      destruct Hs as [<-|[<-|[<-|[]]]]; try discriminate Hf; discriminate Hu.
    + destruct Hstored as (db1 & db2 & Hfirst & _ & Hsecond & _ & Hone & _).
      { vm_compute. discriminate. }
      rewrite Hfirst. unfold final at 2. cbn [snd].
      rewrite Hsecond. unfold final. cbn [snd]. exact Hone.
  - destruct (upsert_twice_one_row 500 600 Sample.orphan (signedIn "u1")
                Sample.db (mkUser "u1") eq_refl) as [_ Hrefused].
    + intros s Hs [Hf _]. simpl in Hs.
      destruct Hs as [<-|[<-|[<-|[]]]]; discriminate Hf.
    + apply (Hrefused eq_refl 500).
Defined.

(** * Beyond the ownership chain: every handler, run to its result *)

Lemma anonymous_thrown {A} (k : User -> Async A) context db :
  currentUser context = None ->
  bind (requireUser context) k db = (Thrown unauthorized, db).
Proof. intros Hu. apply bind_thrown. now apply requireUser_anonymous. Qed.

Lemma signed_continue {A} (k : User -> Async A) context db u :
  currentUser context = Some u ->
  bind (requireUser context) k db = k u db.
Proof. intros Hu. apply bind_returned. now apply requireUser_signed. Qed.

Lemma createFormulaGroup_run now input context db u :
  currentUser context = Some u ->
  createFormulaGroup now input context db
  = (Returned
       (mkResponse true
          (Some (DataGroup
             (Some (createdGroup now input u (next_id (FormulaGroups db))))))),
     withFormulaGroups
       (appended (createdGroup now input u) (FormulaGroups db)) db).
Proof.
  intros Hu. unfold createFormulaGroup. now rewrite (signed_continue _ _ _ _ Hu).
Qed.

Lemma updateFormulaGroup_run now input context db u :
  currentUser context = Some u ->
  updateFormulaGroup now input context db
  = match outcome (getOwnedGroup (UpdateGroupInput.id input) (user_id u) db)
    with
    | Thrown e => (Thrown e, db)
    | Returned g =>
        (Returned
           (mkResponse true
              (Some (DataGroup (Some (setFormulaGroup now input g))))),
         withFormulaGroups
           (rewritten (UpdateGroupInput.id input) (setFormulaGroup now input)
              (FormulaGroups db)) db)
    end.
Proof.
  intros Hu. unfold updateFormulaGroup. rewrite (signed_continue _ _ _ _ Hu).
  destruct (outcome (getOwnedGroup (UpdateGroupInput.id input) (user_id u) db))
    as [g|e] eqn:Hg.
  - assert (Hrun : getOwnedGroup (UpdateGroupInput.id input) (user_id u) db
                   = (Returned g, db))
      by (now rewrite getOwnedGroup_eq, Hg).
    rewrite (bind_returned _ _ _ _ _ Hrun).
    apply getOwnedGroup_returned_found in Hrun.
    unfold bind, updateFormulaGroups, ret, update_where.
    rewrite first_update_where. unfold findGroup in Hrun.
    now rewrite Hrun.
  - apply bind_thrown. now rewrite getOwnedGroup_eq, Hg.
Qed.

Lemma createFormula_run now input context db u :
  currentUser context = Some u ->
  createFormula now input context db
  = match checkGroup (CreateFormulaInput.groupId input) (user_id u) db with
    | Some e => (Thrown e, db)
    | None =>
        (Returned
           (mkResponse true
              (Some (DataFormula
                 (Some (createdFormula now input (next_id (Formulas db))))))),
         withFormulas (appended (createdFormula now input) (Formulas db)) db)
    end.
Proof.
  intros Hu. unfold createFormula, checkGroup.
  rewrite (signed_continue _ _ _ _ Hu).
  destruct (CreateFormulaInput.groupId input) as [g|] eqn:Hgid.
  - destruct (outcome (getOwnedGroup g (user_id u) db)) as [gr|e] eqn:Hg.
    + erewrite group_gate_returned by exact Hg. unfold createdFormula.
      rewrite Hgid. reflexivity.
    + now erewrite group_gate_thrown by exact Hg.
  - unfold createdFormula. rewrite Hgid. reflexivity.
Qed.

(** A formula that passed the editability check sits in no group or in one
    the caller may use: checking that group again cannot fail. *)
Lemma editable_group_passes formulaId userId db f :
  outcome (ensureFormulaIsEditable formulaId userId db) = Returned f ->
  findFormula db formulaId = Some f
  /\ checkGroup (Formula.groupId f) userId db = None.
Proof.
  rewrite ensureFormulaIsEditable_run. unfold outcome at 1, checkGroup.
  cbn [fst].
  destruct (findFormula db formulaId) as [f0|]; [|discriminate].
  destruct (Formula.groupId f0) as [g|] eqn:Hg.
  - destruct (outcome (getOwnedGroup g userId db)) eqn:Hrun;
      intros E; inversion E; subst.
    rewrite Hg, Hrun. auto.
  - intros E; inversion E; subst. rewrite Hg. auto.
Qed.

Lemma ensure_returned formulaId userId db f :
  outcome (ensureFormulaIsEditable formulaId userId db) = Returned f ->
  ensureFormulaIsEditable formulaId userId db = (Returned f, db).
Proof. intros H. now rewrite ensureFormulaIsEditable_eq, H. Qed.

Lemma ensure_thrown formulaId userId db e :
  outcome (ensureFormulaIsEditable formulaId userId db) = Thrown e ->
  ensureFormulaIsEditable formulaId userId db = (Thrown e, db).
Proof. intros H. now rewrite ensureFormulaIsEditable_eq, H. Qed.

(** A handler's guarded group check, run. *)
Lemma group_check_run {B} (groupId : option Z) userId (k : Async B) db :
  (match groupId with
   | Some g => getOwnedGroup g userId ;;; ret tt
   | None => ret tt
   end ;;; k) db
  = match checkGroup groupId userId db with
    | Some e => (Thrown e, db)
    | None => k db
    end.
Proof.
  unfold checkGroup. destruct groupId as [g|]; [|reflexivity].
  destruct (outcome (getOwnedGroup g userId db)) as [gr|e] eqn:Hg.
  - now erewrite group_gate_returned by exact Hg.
  - now erewrite group_gate_thrown by exact Hg.
Qed.

Lemma updateFormula_run now input context db u :
  currentUser context = Some u ->
  updateFormula now input context db
  = match outcome (ensureFormulaIsEditable (UpdateFormulaInput.id input)
                     (user_id u) db) with
    | Thrown e => (Thrown e, db)
    | Returned f =>
        match checkGroup (UpdateFormulaInput.groupId input) (user_id u) db
        with
        | Some e => (Thrown e, db)
        | None =>
            (Returned
               (mkResponse true
                  (Some (DataFormula (Some (setFormula now input f))))),
             withFormulas
               (rewritten (UpdateFormulaInput.id input) (setFormula now input)
                  (Formulas db)) db)
        end
    end.
Proof.
  intros Hu. unfold updateFormula. rewrite (signed_continue _ _ _ _ Hu).
  destruct (outcome (ensureFormulaIsEditable (UpdateFormulaInput.id input)
                       (user_id u) db)) as [f|e] eqn:Hf.
  2:{ apply bind_thrown. now apply ensure_thrown. }
  rewrite (bind_returned _ _ _ _ _ (ensure_returned _ _ _ _ Hf)).
  destruct (editable_group_passes _ _ _ _ Hf) as [Hfound Hpass].
  assert (Hwrite :
    (updated <- updateFormulas
       (fun f0 => Formula.id f0 =? UpdateFormulaInput.id input)
       (setFormula now input) ;;
     ret (mkResponse true (Some (DataFormula (first updated))))) db
    = (Returned
         (mkResponse true
            (Some (DataFormula (Some (setFormula now input f))))),
       withFormulas
         (rewritten (UpdateFormulaInput.id input) (setFormula now input)
            (Formulas db)) db)).
  { unfold bind, updateFormulas, ret, update_where.
    rewrite first_update_where. unfold findFormula in Hfound.
    now rewrite Hfound. }
  destruct (UpdateFormulaInput.groupId input) as [g|] eqn:Hgid.
  - rewrite (group_check_run (Some g)).
    destruct (checkGroup (Some g) (user_id u) db); [reflexivity|exact Hwrite].
  - cbn [checkGroup]. rewrite (group_check_run (Formula.groupId f)).
    rewrite Hpass. exact Hwrite.
Qed.

Lemma archiveFormula_run_all now input context db u :
  currentUser context = Some u ->
  archiveFormula now input context db
  = match checkEditable (ArchiveFormulaInput.id input) (user_id u) db with
    | Some e => (Thrown e, db)
    | None =>
        (Returned (mkResponse true None),
         archived_db now (ArchiveFormulaInput.id input) db)
    end.
Proof.
  intros Hu. unfold checkEditable.
  destruct (outcome (ensureFormulaIsEditable (ArchiveFormulaInput.id input)
                       (user_id u) db)) as [f|e] eqn:Hf.
  - apply (archiveFormula_run now input context db u f Hu).
    now apply ensure_returned.
  - unfold archiveFormula. rewrite (signed_continue _ _ _ _ Hu).
    apply bind_thrown. now apply ensure_thrown.
Qed.

Lemma createFormulaExample_run now input context db u :
  currentUser context = Some u ->
  createFormulaExample now input context db
  = match checkEditable (CreateExampleInput.formulaId input) (user_id u) db
    with
    | Some e => (Thrown e, db)
    | None =>
        (Returned
           (mkResponse true
              (Some (DataExample
                 (Some (createdExample now input
                          (next_id (FormulaExamples db))))))),
         withFormulaExamples
           (appended (createdExample now input) (FormulaExamples db)) db)
    end.
Proof.
  intros Hu. unfold createFormulaExample, checkEditable.
  rewrite (signed_continue _ _ _ _ Hu).
  destruct (outcome (ensureFormulaIsEditable (CreateExampleInput.formulaId input)
                       (user_id u) db)) as [f|e] eqn:Hf.
  2:{ apply bind_thrown. now apply ensure_thrown. }
  rewrite (bind_returned _ _ _ _ _ (ensure_returned _ _ _ _ Hf)).
  destruct (editable_group_passes _ _ _ _ Hf) as [_ Hpass].
  rewrite (group_check_run (Formula.groupId f)). now rewrite Hpass.
Qed.

Lemma upsertUserFormulaState_run now input context db u :
  currentUser context = Some u ->
  upsertUserFormulaState now input context db
  = match find (state_ofb (user_id u) (UpsertStateInput.formulaId input))
            (rows (UserFormulaState db)) with
    | Some existing =>
        (Returned
           (mkResponse true
              (Some (DataState
                 (option_map (setUserState now input)
                    (find (fun s => UserState.id s =? UserState.id existing)
                       (rows (UserFormulaState db))))))),
         withUserFormulaState
           (rewritten (UserState.id existing) (setUserState now input)
              (UserFormulaState db)) db)
    | None =>
        match findFormula db (UpsertStateInput.formulaId input) with
        | Some _ =>
            (Returned
               (mkResponse true
                  (Some (DataState
                     (Some (createdState now input u
                              (next_id (UserFormulaState db))))))),
             withUserFormulaState
               (appended (createdState now input u) (UserFormulaState db)) db)
        | None => (Thrown foreignKeyFailed, db)
        end
    end.
Proof.
  intros Hu. unfold upsertUserFormulaState.
  rewrite (signed_continue _ _ _ _ Hu).
  unfold bind at 1, selectUserFormulaState, select_where.
  rewrite first_filter.
  change (fun s : UserState.t =>
            (UserState.formulaId s =? UpsertStateInput.formulaId input)
            && String.eqb (UserState.userId s) (user_id u))
    with (state_ofb (user_id u) (UpsertStateInput.formulaId input)).
  destruct (find _ _) as [existing|].
  - unfold bind, updateUserFormulaState, ret, update_where.
    now rewrite first_update_where.
  - unfold bind, insertUserFormulaState, ret. cbn [UserState.formulaId].
    unfold findFormula.
    destruct (find _ (rows (Formulas db))); reflexivity.
Qed.

(** Every action, whatever the caller and the input, has one of the effects
    of [Effect]. *)
Lemma server_effect now a context db :
  Effect db (server now a context db).
Proof.
  destruct (currentUser context) as [u|] eqn:Hu.
  2:{ assert (server now a context db = (Thrown unauthorized, db)) as ->
        by (destruct a; simpl; apply bind_thrown;
            now apply requireUser_anonymous).
      constructor. }
  destruct a as [input|input|input|input|input|input|input|input|input|input
                |input]; simpl.
  - rewrite (createFormulaGroup_run _ _ _ _ _ Hu).
    now apply effect_group_inserted.
  - rewrite (updateFormulaGroup_run _ _ _ _ _ Hu).
    destruct (outcome _); [|constructor].
    apply effect_group_updated. intros g. now unfold setFormulaGroup.
  - unfold listMyFormulaGroups. rewrite (signed_continue _ _ _ _ Hu).
    apply effect_read.
  - rewrite (createFormula_run _ _ _ _ _ Hu).
    destruct (checkGroup _ _ _) eqn:Hc; [constructor|].
    apply effect_formula_inserted; [reflexivity|].
    intros i g Hg. simpl in Hg. rewrite Hg in Hc. unfold checkGroup in Hc.
    rewrite getOwnedGroup_run in Hc. unfold outcome in Hc. cbn [fst] in Hc.
    destruct (findGroup db g); [discriminate|discriminate Hc].
  - rewrite (updateFormula_run _ _ _ _ _ Hu).
    destruct (outcome _); [|constructor].
    destruct (checkGroup _ _ _) eqn:Hc; [constructor|].
    apply effect_formula_updated. intros f. unfold setFormula; simpl.
    split; [reflexivity|]. split; [reflexivity|].
    destruct (UpdateFormulaInput.groupId input) as [g|]; [right|now left].
    exists g. split; [reflexivity|]. unfold checkGroup in Hc.
    rewrite getOwnedGroup_run in Hc. unfold outcome in Hc. cbn [fst] in Hc.
    destruct (findGroup db g); [discriminate|discriminate Hc].
  - rewrite (archiveFormula_run_all _ _ _ _ _ Hu).
    destruct (checkEditable _ _ _); [constructor|].
    apply effect_formula_updated. intros f. unfold setArchived; simpl. auto.
  - unfold listFormulas. rewrite (signed_continue _ _ _ _ Hu).
    match goal with
    | |- Effect _ (bind ?m _ _) =>
        assert (Hm : exists l, m db = (Returned l, db))
    end.
    { destruct input as [[g d inc]|]; simpl;
        repeat match goal with
               | |- context [match ?x with _ => _ end] => destruct x
               end; unfold selectFormulas; eauto. }
    destruct Hm as [l Hm]. rewrite (bind_returned _ _ _ _ _ Hm).
    apply effect_read.
  - rewrite (createFormulaExample_run _ _ _ _ _ Hu).
    destruct (checkEditable _ _ _) eqn:Hc; [constructor|].
    apply effect_example_inserted; [reflexivity|].
    intros i. simpl. unfold checkEditable in Hc.
    rewrite ensureFormulaIsEditable_run in Hc. unfold outcome at 1 in Hc.
    cbn [fst] in Hc.
    destruct (findFormula db _); [discriminate|discriminate Hc].
  - unfold listFormulaExamples. rewrite (signed_continue _ _ _ _ Hu).
    apply effect_read.
  - rewrite (upsertUserFormulaState_run _ _ _ _ _ Hu).
    destruct (find _ _) as [existing|] eqn:Hfind.
    + apply effect_state_updated. intros r. now unfold setUserState.
    + destruct (findFormula db _); [|constructor].
      apply effect_state_inserted; [reflexivity|].
      intros i. simpl. apply filter_none. intros s Hs.
      apply (find_none _ _ Hfind s Hs).
  - unfold listUserFormulaStates. rewrite (signed_continue _ _ _ _ Hu).
    apply effect_read.
Qed.

(** ** Facts about inserts and updates on one table *)

Section TableFacts.
Context {R : Type} `{HasId R}.

Lemma appended_ids (v : Z -> R) (t : Table R) :
  (forall i, row_id (v i) = i) ->
  map row_id (rows (appended v t)) = map row_id (rows t) ++ [next_id t].
Proof.
  intros Hv. unfold appended. cbn [rows]. rewrite map_app. cbn [map].
  now rewrite Hv.
Qed.

Lemma rewritten_keys {K} (key : R -> K) (i : Z) (s : R -> R) (t : Table R) :
  (forall r, key (s r) = key r) ->
  map key (rows (rewritten i s t)) = map key (rows t).
Proof.
  intros Hs. unfold rewritten. cbn [rows]. rewrite map_map. apply map_ext.
  intros r. now destruct (row_id r =? i).
Qed.

Lemma appended_unique (v : Z -> R) (t : Table R) :
  (forall i, row_id (v i) = i) ->
  unique_ids t -> unique_ids (appended v t).
Proof.
  unfold unique_ids. intros Hv Hu. rewrite (appended_ids v t Hv).
  apply NoDup_app; [exact Hu | repeat constructor; simpl; tauto |].
  intros z Hz [<-|[]]. apply in_map_iff in Hz. destruct Hz as (r & Hr & Hin).
  pose proof (next_id_fresh t r Hin). lia.
Qed.

Lemma rewritten_unique (i : Z) (s : R -> R) (t : Table R) :
  (forall r, row_id (s r) = row_id r) ->
  unique_ids t -> unique_ids (rewritten i s t).
Proof.
  unfold unique_ids. intros Hs Hu. now rewrite (rewritten_keys row_id i s t Hs).
Qed.

Lemma find_appended (p : R -> bool) (l : list R) (x r : R) :
  find p l = Some r -> find p (l ++ [x]) = Some r.
Proof.
  induction l as [|a l IH]; simpl; [discriminate|].
  destruct (p a); auto.
Qed.

Lemma find_rewritten (k i : Z) (s : R -> R) (l : list R) :
  (forall r, row_id (s r) = row_id r) ->
  find (fun r => row_id r =? k)
    (map (fun r => if row_id r =? i then s r else r) l)
  = option_map (fun r => if row_id r =? i then s r else r)
      (find (fun r => row_id r =? k) l).
Proof.
  intros Hs. induction l as [|a l IH]; simpl; [reflexivity|].
  assert (E : row_id (if row_id a =? i then s a else a) = row_id a)
    by (destruct (row_id a =? i); auto).
  rewrite E. destruct (row_id a =? k); auto.
Qed.

Lemma find_by_id_In (k : Z) (l : list R) :
  find (fun r => row_id r =? k) l <> None <->
  exists r, In r l /\ row_id r = k.
Proof.
  split.
  - destruct (find _ l) as [r|] eqn:E; [intros _|congruence].
    apply find_some in E. destruct E as [Hin Hk]. apply Z.eqb_eq in Hk. eauto.
  - intros (r & Hin & Hk) Hnone.
    pose proof (find_none _ _ Hnone r Hin) as E. simpl in E.
    apply Z.eqb_neq in E. contradiction.
Qed.

Lemma In_rewritten_id (k i : Z) (s : R -> R) (l : list R) :
  (forall r, row_id (s r) = row_id r) ->
  (exists r, In r l /\ row_id r = k) ->
  exists r, In r (map (fun r => if row_id r =? i then s r else r) l)
            /\ row_id r = k.
Proof.
  intros Hs (r & Hin & Hk).
  exists (if row_id r =? i then s r else r). split.
  - apply in_map_iff. eauto.
  - destruct (row_id r =? i); [now rewrite Hs | exact Hk].
Qed.
End TableFacts.

Lemma grown_same {A K} (key : A -> K) (l : list A) : grown key l l.
Proof. exists []. simpl. rewrite app_nil_r. split; [reflexivity | lia]. Qed.

Lemma grown_appended {A K} (key : A -> K) (l : list A) (x : A) :
  grown key l (l ++ [x]).
Proof. exists [x]. rewrite map_app. split; [reflexivity | simpl; lia]. Qed.

Lemma grown_rewritten {A K} (key : A -> K) (g : A -> A) (l : list A) :
  (forall a, key (g a) = key a) -> grown key l (map g l).
Proof.
  intros Hg. exists []. simpl. rewrite app_nil_r, map_map.
  split; [now apply map_ext | lia].
Qed.

(** Running an action and looking at the store it leaves. *)
Ltac by_effect :=
  match goal with
  | |- context [server ?t ?a ?c ?d] =>
      generalize (server_effect t a c d);
      generalize (server t a c d);
      let r := fresh "r" in
      let E := fresh "E" in
      intros r E; destruct E; unfold final; cbn [snd]
  end.

(** ** What no action does *)

(** X1: a call that throws has written nothing: every check of every handler
    comes before its write. *)
Theorem failed_call_writes_nothing (now : Date) (a : Action)
  (context : ActionAPIContext) (db db' : Db) (e : ActionError) :
  server now a context db = (Thrown e, db') -> db' = db.
Proof.
  intros Hrun. pose proof (server_effect now a context db) as E.
  rewrite Hrun in E. inversion E. reflexivity.
Qed.

(** On the sample database. *)
Lemma failed_call_writes_nothing_witness :
  final (server 500 (CreateFormula
                       (CreateFormulaInput.mk (Some 2) "F=ma" "F=ma" None None
                          None basic None))
           (signedIn "u1") Sample.db) = Sample.db.
Proof.
  apply (failed_call_writes_nothing 500
           (CreateFormula
              (CreateFormulaInput.mk (Some 2) "F=ma" "F=ma" None None None
                 basic None))
           (signedIn "u1") Sample.db _ forbidden).
  reflexivity.
Defined.

(** X2: no action deletes or reorders rows, changes an id or a createdAt,
    a group's ownerId, a state row's userId or formulaId, or any column of an
    example; a call adds at most one row to each table, at the end. *)
Theorem rows_never_deleted (now : Date) (a : Action)
  (context : ActionAPIContext) (db : Db) :
  grown group_key (rows (FormulaGroups db))
    (rows (FormulaGroups (final (server now a context db))))
  /\ grown formula_key (rows (Formulas db))
       (rows (Formulas (final (server now a context db))))
  /\ grown (fun e : FormulaExample.t => e) (rows (FormulaExamples db))
       (rows (FormulaExamples (final (server now a context db))))
  /\ grown state_key (rows (UserFormulaState db))
       (rows (UserFormulaState (final (server now a context db)))).
Proof.
  by_effect; conjuncts; cbn [FormulaGroups Formulas
    FormulaExamples UserFormulaState withFormulaGroups withFormulas
    withFormulaExamples withUserFormulaState appended rewritten rows];
    try apply grown_same; try apply grown_appended;
    apply grown_rewritten; intros x.
  - destruct (row_id x =? i); [|reflexivity]. unfold group_key.
    destruct (H x) as (-> & -> & ->). reflexivity.
  - destruct (row_id x =? i); [|reflexivity]. unfold formula_key.
    destruct (H x) as (-> & -> & _). reflexivity.
  - destruct (row_id x =? i); [|reflexivity]. unfold state_key.
    destruct (H x) as (-> & -> & -> & ->). reflexivity.
Qed.

(** ** Invariants every action keeps *)

(** X3: primary keys stay unique: if no table holds two rows with the same
    id, none does after any call of any action. *)
Theorem primary_keys_stay_unique (now : Date) (a : Action)
  (context : ActionAPIContext) (db : Db) :
  keys_unique db -> keys_unique (final (server now a context db)).
Proof.
  intros (Hg & Hf & He & Hs).
  by_effect; unfold keys_unique; cbn [FormulaGroups Formulas FormulaExamples
    UserFormulaState withFormulaGroups withFormulas withFormulaExamples
    withUserFormulaState]; conjuncts; try assumption;
    try (apply appended_unique; assumption);
    apply rewritten_unique; try assumption; intros x; apply H.
Qed.

Lemma sample_keys_unique : keys_unique Sample.db.
Proof.
  unfold keys_unique, unique_ids; simpl.
  conjuncts; repeat (constructor; [simpl; intuition discriminate|]);
    constructor.
Qed.

(** On the sample database. *)
Lemma primary_keys_stay_unique_witness :
  keys_unique
    (final (server 500 (UpsertUserFormulaState Sample.favourite)
              (signedIn "u2") Sample.db)).
Proof.
  apply (primary_keys_stay_unique 500 (UpsertUserFormulaState Sample.favourite)
           (signedIn "u2") Sample.db).
  exact sample_keys_unique.
Defined.

(** X4: references stay valid: if every formula's groupId names a stored
    group and every example's formulaId names a stored formula, the same
    holds after any call of any action. *)
Theorem references_stay_valid (now : Date) (a : Action)
  (context : ActionAPIContext) (db : Db) :
  references_valid db -> references_valid (final (server now a context db)).
Proof.
  intros [Hfg Hef].
  by_effect; unfold references_valid; cbn [FormulaGroups Formulas
    FormulaExamples UserFormulaState withFormulaGroups withFormulas
    withFormulaExamples withUserFormulaState appended rewritten rows];
    try (split; assumption).
  - (* a group was inserted *)
    split; [|exact Hef]. intros f g Hf Hg.
    destruct (Hfg f g Hf Hg) as (gr & Hin & Hid).
    exists gr. split; [apply in_app_iff; now left | exact Hid].
  - (* a group was updated *)
    split; [|exact Hef]. intros f g Hf Hg.
    apply (In_rewritten_id g i s (rows (FormulaGroups db))).
    + intros x. apply H.
    + exact (Hfg f g Hf Hg).
  - (* a formula was inserted *)
    split.
    + intros f g Hf Hg. apply in_app_iff in Hf. destruct Hf as [Hf|[<-|[]]].
      * exact (Hfg f g Hf Hg).
      * apply (find_by_id_In g (rows (FormulaGroups db))).
        exact (H0 _ g Hg).
    + intros e He. destruct (Hef e He) as (f & Hin & Hid).
      exists f. split; [apply in_app_iff; now left | exact Hid].
  - (* a formula was updated *)
    split.
    + intros f g Hf Hg. apply in_map_iff in Hf.
      destruct Hf as (f0 & <- & Hin).
      destruct (row_id f0 =? i); [|exact (Hfg f0 g Hin Hg)].
      destruct (H f0) as (_ & _ & [Hsame|(g' & Hnew & Hfound)]).
      * rewrite Hsame in Hg. exact (Hfg f0 g Hin Hg).
      * rewrite Hnew in Hg. inversion Hg; subst.
        apply (find_by_id_In g (rows (FormulaGroups db))). exact Hfound.
    + intros e He.
      apply (In_rewritten_id (FormulaExample.formulaId e) i s
               (rows (Formulas db))).
      * intros x. apply H.
      * exact (Hef e He).
  - (* an example was inserted *)
    split; [exact Hfg|]. intros e He. apply in_app_iff in He.
    destruct He as [He|[<-|[]]]; [exact (Hef e He)|].
    apply (find_by_id_In _ (rows (Formulas db))). apply H0.
Qed.

Lemma sample_references_valid : references_valid Sample.db.
Proof.
  split.
  - intros f g Hf Hg. simpl in Hf.
    destruct Hf as [<-|[<-|[<-|[]]]]; simpl in Hg; inversion Hg; subst;
      apply (find_by_id_In _ (rows (FormulaGroups Sample.db)));
      vm_compute; discriminate.
  - intros e He. simpl in He.
    destruct He as [<-|[<-|[<-|[]]]];
      apply (find_by_id_In _ (rows (Formulas Sample.db)));
      vm_compute; discriminate.
Qed.

(** On the sample database. *)
Lemma references_stay_valid_witness :
  references_valid
    (final (server 500 (UpdateFormula (Sample.moveFormula 2 1))
              (signedIn "u1") Sample.db)).
Proof.
  apply (references_stay_valid 500 (UpdateFormula (Sample.moveFormula 2 1))
           (signedIn "u1") Sample.db).
  exact sample_references_valid.
Defined.

Lemma state_ofb_true userId formulaId s :
  state_ofb userId formulaId s = true ->
  UserState.userId s = userId /\ UserState.formulaId s = formulaId.
Proof.
  unfold state_ofb. rewrite andb_true_iff, Z.eqb_eq, String.eqb_eq. tauto.
Qed.

(** X5: the lookup-before-insert of [upsertUserFormulaState] keeps the
    invariant it is there for: if no (userId, formulaId) pair has two state
    rows, none has after any call of any action. *)
Theorem one_state_per_pair_kept (now : Date) (a : Action)
  (context : ActionAPIContext) (db : Db) :
  one_state_per_pair db ->
  one_state_per_pair (final (server now a context db)).
Proof.
  intros Hone.
  by_effect; unfold one_state_per_pair; cbn [UserFormulaState
    withFormulaGroups withFormulas withFormulaExamples withUserFormulaState
    appended rewritten rows]; try exact Hone; intros userId formulaId.
  - (* a state row was inserted *)
    rewrite filter_app, length_app. cbn [filter].
    destruct (state_ofb userId formulaId (v _)) eqn:E.
    + apply state_ofb_true in E. destruct E as [<- <-].
      rewrite H0. simpl. lia.
    + specialize (Hone userId formulaId). simpl. lia.
  - (* a state row was updated *)
    rewrite filter_map_stable.
    + rewrite length_map. apply Hone.
    + intros x. destruct (row_id x =? i); [|reflexivity].
      unfold state_ofb. destruct (H x) as (_ & -> & -> & _). reflexivity.
Qed.

Lemma sample_one_state_per_pair : one_state_per_pair Sample.db.
Proof.
  intros userId formulaId. unfold state_ofb. cbn [Sample.db UserFormulaState rows filter
    UserState.formulaId UserState.userId].
  destruct (Z.eqb_spec 1 formulaId), (Z.eqb_spec 2 formulaId),
           (String.eqb_spec "u1" userId), (String.eqb_spec "u2" userId);
    subst; try discriminate; try lia; simpl; lia.
Qed.

(** On the sample database. *)
Lemma one_state_per_pair_kept_witness :
  one_state_per_pair
    (final (server 500 (UpsertUserFormulaState Sample.favourite)
              (signedIn "u1") Sample.db)).
Proof.
  apply (one_state_per_pair_kept 500
           (UpsertUserFormulaState Sample.favourite) (signedIn "u1")
           Sample.db).
  exact sample_one_state_per_pair.
Defined.

(** X6: no action changes who may use an existing group: for a group that is
    stored before the call, [getOwnedGroup] gives every user the same verdict
    (success, or the same error code) after the call as before. *)
Theorem group_access_stable (now : Date) (a : Action)
  (context : ActionAPIContext) (db : Db) (groupId : Z) (userId : string) :
  findGroup db groupId <> None ->
  thrownCode
    (outcome (getOwnedGroup groupId userId
                (final (server now a context db))))
  = thrownCode (outcome (getOwnedGroup groupId userId db)).
Proof.
  intros Hfound. rewrite !getOwnedGroup_run. unfold outcome. cbn [fst].
  by_effect; unfold findGroup in *; cbn [FormulaGroups withFormulaGroups
    withFormulas withFormulaExamples withUserFormulaState appended rewritten
    rows]; try reflexivity.
  - (* a group was inserted *)
    destruct (find _ (rows (FormulaGroups db))) as [g|] eqn:E;
      [|congruence].
    now rewrite (find_appended _ _ _ g E).
  - (* a group was updated *)
    pose proof (find_rewritten groupId i s (rows (FormulaGroups db))
                  (fun x => proj1 (H x))) as Hfind.
    unfold row_id, FormulaGroup_HasId in *. rewrite Hfind.
    destruct (find _ (rows (FormulaGroups db))) as [g|]; [|reflexivity].
    cbn [option_map].
    assert (Ho : FormulaGroup.ownerId
                   (if FormulaGroup.id g =? i then s g else g)
                 = FormulaGroup.ownerId g).
    { destruct (FormulaGroup.id g =? i); [apply H | reflexivity]. }
    rewrite Ho. now destruct (truthy _ && strict_ne _ _).
Qed.

(** On the sample database. *)
Lemma group_access_stable_witness :
  thrownCode
    (outcome (getOwnedGroup 1 "u2"
                (final (server 500 (UpdateFormulaGroup Sample.retag)
                          (signedIn "u1") Sample.db))))
  = Some FORBIDDEN.
Proof.
  rewrite (group_access_stable 500 (UpdateFormulaGroup Sample.retag)
             (signedIn "u1") Sample.db 1 "u2").
  - reflexivity.
  - vm_compute. discriminate.
Defined.

(** ** Groups: create, look up, list *)

Lemma find_appended_fresh {A} (p : A -> bool) (l : list A) (x : A) :
  (forall a, In a l -> p a = false) -> p x = true ->
  find p (l ++ [x]) = Some x.
Proof.
  intros Hl Hx. induction l as [|a l IH]; simpl.
  - now rewrite Hx.
  - rewrite (Hl a (or_introl eq_refl)). apply IH.
    intros b Hb. apply Hl. now right.
Qed.

Lemma fresh_id_unused {R} `{HasId R} (t : Table R) (r : R) :
  In r (rows t) -> (row_id r =? next_id t) = false.
Proof. intros Hin. apply Z.eqb_neq. pose proof (next_id_fresh t r Hin). lia. Qed.

(** X7: [createFormulaGroup] always succeeds for a signed-in caller; it
    appends one group with a fresh id, owned by the caller, active unless the
    input says otherwise, created and updated at the time of the call, and
    returns it.  Looking the new id up afterwards gives that group back to
    its creator, and FORBIDDEN to every other user when the creator's id is
    not the empty string. *)
Theorem created_group_belongs_to_creator (now : Date)
  (input : CreateGroupInput.t) (context : ActionAPIContext) (db : Db)
  (u : User) :
  currentUser context = Some u ->
  exists g db',
    createFormulaGroup now input context db
    = (Returned (mkResponse true (Some (DataGroup (Some g)))), db')
    /\ rows (FormulaGroups db') = rows (FormulaGroups db) ++ [g]
    /\ (forall r, In r (rows (FormulaGroups db)) ->
                  FormulaGroup.id r < FormulaGroup.id g)
    /\ FormulaGroup.ownerId g = Some (user_id u)
    /\ FormulaGroup.name g = CreateGroupInput.name input
    /\ FormulaGroup.isActive g
       = negb (match CreateGroupInput.isActive input with
               | Some b => negb b
               | None => false
               end)
    /\ FormulaGroup.createdAt g = now
    /\ FormulaGroup.updatedAt g = now
    /\ getOwnedGroup (FormulaGroup.id g) (user_id u) db' = (Returned g, db')
    /\ (forall other,
          user_id u <> "" -> other <> user_id u ->
          getOwnedGroup (FormulaGroup.id g) other db'
          = (Thrown forbidden, db')).
Proof.
  intros Hu.
  set (g := createdGroup now input u (next_id (FormulaGroups db))).
  set (db' := withFormulaGroups
                (appended (createdGroup now input u) (FormulaGroups db)) db).
  assert (Hfind : findGroup db' (FormulaGroup.id g) = Some g).
  { unfold findGroup, db'. cbn [withFormulaGroups FormulaGroups appended rows].
    apply find_appended_fresh.
    - intros r Hr. apply (fresh_id_unused (FormulaGroups db) r Hr).
    - apply Z.eqb_refl. }
  exists g, db'. conjuncts; try reflexivity.
  - apply (createFormulaGroup_run now input context db u Hu).
  - intros r Hr. apply (next_id_fresh (FormulaGroups db) r Hr).
  - simpl. now destruct (CreateGroupInput.isActive input) as [[|]|].
  - rewrite getOwnedGroup_run, Hfind.
    now rewrite owner_gate_open by (right; right; reflexivity).
  - intros other Hne Hother. rewrite getOwnedGroup_run, Hfind.
    change (FormulaGroup.ownerId g) with (Some (user_id u)).
    rewrite owner_gate_closed; [reflexivity | exact Hne |].
    intros E. now apply Hother.
Qed.

(** On the sample database. *)
Lemma created_group_belongs_to_creator_witness :
  exists g db',
    createFormulaGroup 500
      (CreateGroupInput.mk "Optics" None None None None None)
      (signedIn "u2") Sample.db
    = (Returned (mkResponse true (Some (DataGroup (Some g)))), db')
    /\ getOwnedGroup (FormulaGroup.id g) "u1" db' = (Thrown forbidden, db').
Proof.
  destruct (created_group_belongs_to_creator 500
              (CreateGroupInput.mk "Optics" None None None None None)
              (signedIn "u2") Sample.db (mkUser "u2") eq_refl)
    as (g & db' & Hrun & _ & _ & _ & _ & _ & _ & _ & _ & Hother).
  exists g, db'. split; [exact Hrun|].
  apply Hother; discriminate.
Defined.

Lemma listMyFormulaGroups_run input context db u :
  currentUser context = Some u ->
  listMyFormulaGroups input context db
  = (let items :=
       filter (fun g =>
                 if groupsIncludeInactive input
                 then eq_text (FormulaGroup.ownerId g) (user_id u)
                 else eq_text (FormulaGroup.ownerId g) (user_id u)
                      && Bool.eqb (FormulaGroup.isActive g) true)
         (rows (FormulaGroups db)) in
     (Returned (mkResponse true (Some (DataGroups items (List.length items)))),
      db)).
Proof.
  intros Hu. unfold listMyFormulaGroups. rewrite (signed_continue _ _ _ _ Hu).
  unfold bind, selectFormulaGroups, select_where, ret.
  destruct input as [[[|]]|]; reflexivity.
Qed.

Lemma my_group_dec input userId g :
  (if groupsIncludeInactive input
   then eq_text (FormulaGroup.ownerId g) userId
   else eq_text (FormulaGroup.ownerId g) userId
        && Bool.eqb (FormulaGroup.isActive g) true)
  = true <-> my_group input userId g.
Proof.
  unfold my_group, eq_text.
  destruct (groupsIncludeInactive input);
    rewrite ?andb_true_iff, ?Bool.eqb_true_iff;
    destruct (FormulaGroup.ownerId g) as [o|];
    rewrite ?String.eqb_eq; intuition (try congruence); discriminate.
Qed.

(** X8: for a signed-in caller [listMyFormulaGroups] succeeds and writes
    nothing; [items] is exactly the selection of the groups whose ownerId is
    the caller's id, restricted to active ones unless includeInactive is set,
    and [total] is their number.  Groups with a null owner are never listed. *)
Theorem listMyFormulaGroups_own_groups (input : option ListGroupsInput.t)
  (context : ActionAPIContext) (db : Db) (u : User) :
  currentUser context = Some u ->
  exists items,
    listMyFormulaGroups input context db
    = (Returned (mkResponse true (Some (DataGroups items (List.length items)))),
       db)
    /\ selection (my_group input (user_id u)) (rows (FormulaGroups db)) items
    /\ (forall g, In g items <->
                  In g (rows (FormulaGroups db))
                  /\ my_group input (user_id u) g)
    /\ (forall g, In g items -> FormulaGroup.ownerId g <> None).
Proof.
  intros Hu. rewrite (listMyFormulaGroups_run input context db u Hu).
  cbv zeta. eexists. split; [reflexivity|].
  assert (Hsel : selection (my_group input (user_id u))
                   (rows (FormulaGroups db))
                   (filter (fun g =>
                              if groupsIncludeInactive input
                              then eq_text (FormulaGroup.ownerId g) (user_id u)
                              else eq_text (FormulaGroup.ownerId g) (user_id u)
                                   && Bool.eqb (FormulaGroup.isActive g) true)
                      (rows (FormulaGroups db))))
    by (apply filter_selection; intros g; apply my_group_dec).
  conjuncts.
  - exact Hsel.
  - apply (selection_In _ _ _ Hsel).
  - intros g Hg. apply (selection_In _ _ _ Hsel) in Hg.
    destruct Hg as [_ [Ho _]]. congruence.
Qed.

(** On the sample database. *)
Lemma listMyFormulaGroups_own_groups_witness :
  exists items,
    listMyFormulaGroups None (signedIn "u1") Sample.db
    = (Returned (mkResponse true (Some (DataGroups items (List.length items)))),
       Sample.db)
    /\ forall g, In g items -> FormulaGroup.ownerId g <> None.
Proof.
  destruct (listMyFormulaGroups_own_groups None (signedIn "u1") Sample.db
              (mkUser "u1") eq_refl) as (items & Hrun & _ & _ & Hown).
  exists items. split; [exact Hrun | exact Hown].
Defined.

(** X9: a group just created shows up in its creator's listing: with
    includeInactive set, the listing after [createFormulaGroup] is the
    listing before followed by the new group. *)
Theorem created_group_is_listed (now : Date) (input : CreateGroupInput.t)
  (context : ActionAPIContext) (db : Db) (u : User) :
  currentUser context = Some u ->
  forall before g db',
    listMyFormulaGroups (Some (ListGroupsInput.mk true)) context db
    = (Returned
         (mkResponse true (Some (DataGroups before (List.length before)))),
       db) ->
    createFormulaGroup now input context db
    = (Returned (mkResponse true (Some (DataGroup (Some g)))), db') ->
    listMyFormulaGroups (Some (ListGroupsInput.mk true)) context db'
    = (Returned
         (mkResponse true
            (Some (DataGroups (before ++ [g]) (List.length (before ++ [g]))))),
       db').
Proof.
  intros Hu before g db' Hlist Hcreate.
  rewrite (listMyFormulaGroups_run _ context db u Hu) in Hlist.
  rewrite (createFormulaGroup_run now input context db u Hu) in Hcreate.
  cbv zeta in Hlist. inversion Hlist as [[Hbefore Hlen]]. clear Hlist Hlen.
  inversion Hcreate as [[Hg Hdb]]. clear Hcreate.
  rewrite (listMyFormulaGroups_run _ context _ u Hu). cbv zeta.
  cbn [withFormulaGroups FormulaGroups appended rows].
  rewrite filter_app. cbn [filter createdGroup FormulaGroup.ownerId eq_text
    groupsIncludeInactive ListGroupsInput.includeInactive].
  rewrite String.eqb_refl. reflexivity.
Qed.

(** On the sample database. *)
Lemma created_group_is_listed_witness :
  exists before g db',
    createFormulaGroup 500
      (CreateGroupInput.mk "Optics" None None None None (Some false))
      (signedIn "u2") Sample.db
    = (Returned (mkResponse true (Some (DataGroup (Some g)))), db')
    /\ listMyFormulaGroups (Some (ListGroupsInput.mk true)) (signedIn "u2") db'
       = (Returned
            (mkResponse true
               (Some (DataGroups (before ++ [g])
                        (List.length (before ++ [g]))))),
          db').
Proof.
  eexists. eexists. eexists. split; [vm_compute; reflexivity|].
  apply (created_group_is_listed 500
           (CreateGroupInput.mk "Optics" None None None None (Some false))
           (signedIn "u2") Sample.db (mkUser "u2") eq_refl
           [Sample.group 2 (Some "u2") "Calculus"]);
    vm_compute; reflexivity.
Defined.

(** ** Formulas: create, move, list *)

Lemma checkGroup_frame groupId userId db db' :
  FormulaGroups db' = FormulaGroups db ->
  checkGroup groupId userId db' = checkGroup groupId userId db.
Proof.
  intros Hg. unfold checkGroup. destruct groupId as [g|]; [|reflexivity].
  rewrite !getOwnedGroup_run. unfold outcome, findGroup. cbn [fst].
  now rewrite Hg.
Qed.

Lemma ensureFormulaIsEditable_by_group formulaId userId db f :
  findFormula db formulaId = Some f ->
  ensureFormulaIsEditable formulaId userId db
  = (match checkGroup (Formula.groupId f) userId db with
     | Some e => Thrown e
     | None => Returned f
     end, db).
Proof.
  intros Hf. rewrite ensureFormulaIsEditable_run, Hf. unfold checkGroup.
  destruct (Formula.groupId f) as [g|]; [|reflexivity].
  now destruct (outcome (getOwnedGroup g userId db)).
Qed.

(** X10: [createFormula] checks the group before it inserts: when a groupId
    is supplied and the group check fails, the call fails with that error and
    no formula is stored; otherwise it appends one formula with a fresh id,
    every field of the input (groupId, name, expression, description,
    variables, meta, difficulty; active unless the input says otherwise) and
    both timestamps the time of the call, returns it, leaves the other tables
    alone, and the caller passes the editability check on it right away. *)
Theorem createFormula_checks_group_first (now : Date)
  (input : CreateFormulaInput.t) (context : ActionAPIContext) (db : Db)
  (u : User) :
  currentUser context = Some u ->
  (forall e,
     checkGroup (CreateFormulaInput.groupId input) (user_id u) db = Some e ->
     createFormula now input context db = (Thrown e, db))
  /\ (checkGroup (CreateFormulaInput.groupId input) (user_id u) db = None ->
      exists f db',
        createFormula now input context db
        = (Returned (mkResponse true (Some (DataFormula (Some f)))), db')
        /\ rows (Formulas db') = rows (Formulas db) ++ [f]
        /\ FormulaGroups db' = FormulaGroups db
        /\ (forall r, In r (rows (Formulas db)) -> Formula.id r < Formula.id f)
        /\ Formula.groupId f = CreateFormulaInput.groupId input
        /\ Formula.name f = CreateFormulaInput.name input
        /\ Formula.expression f = CreateFormulaInput.expression input
        /\ Formula.description f = CreateFormulaInput.description input
        /\ Formula.variables f = CreateFormulaInput.variables input
        /\ Formula.meta f = CreateFormulaInput.meta input
        /\ Formula.difficulty f = CreateFormulaInput.difficulty input
        /\ Formula.isActive f
           = negb (match CreateFormulaInput.isActive input with
                   | Some b => negb b
                   | None => false
                   end)
        /\ Formula.createdAt f = now
        /\ Formula.updatedAt f = now
        /\ UserFormulaState db' = UserFormulaState db
        /\ FormulaExamples db' = FormulaExamples db
        /\ ensureFormulaIsEditable (Formula.id f) (user_id u) db'
           = (Returned f, db')).
Proof.
  intros Hu. rewrite (createFormula_run now input context db u Hu). split.
  - now intros e ->.
  - intros Hpass. rewrite Hpass.
    set (f := createdFormula now input (next_id (Formulas db))).
    set (db' := withFormulas (appended (createdFormula now input) (Formulas db))
                  db).
    exists f, db'. conjuncts; try reflexivity.
    + intros r Hr. apply (next_id_fresh (Formulas db) r Hr).
    + simpl. now destruct (CreateFormulaInput.isActive input) as [[|]|].
    + rewrite (ensureFormulaIsEditable_by_group _ _ _ f).
      * rewrite (checkGroup_frame _ _ db db') by reflexivity.
        change (Formula.groupId f) with (CreateFormulaInput.groupId input).
        now rewrite Hpass.
      * unfold findFormula, db'.
        cbn [withFormulas Formulas appended rows].
        apply find_appended_fresh.
        -- intros r Hr. apply (fresh_id_unused (Formulas db) r Hr).
        -- apply Z.eqb_refl.
Qed.

(** On the sample database. *)
Lemma createFormula_checks_group_first_witness :
  createFormula 500
    (CreateFormulaInput.mk (Some 2) "F=ma" "F=ma" None None None basic None)
    (signedIn "u1") Sample.db = (Thrown forbidden, Sample.db)
  /\ exists f db',
       createFormula 500
         (CreateFormulaInput.mk (Some 1) "F=ma" "F=ma" None None None basic
            None)
         (signedIn "u1") Sample.db
       = (Returned (mkResponse true (Some (DataFormula (Some f)))), db')
       /\ ensureFormulaIsEditable (Formula.id f) "u1" db' = (Returned f, db').
Proof.
  split.
  - apply (createFormula_checks_group_first 500
             (CreateFormulaInput.mk (Some 2) "F=ma" "F=ma" None None None basic
                None)
             (signedIn "u1") Sample.db (mkUser "u1") eq_refl).
    reflexivity.
  - destruct (createFormula_checks_group_first 500
                (CreateFormulaInput.mk (Some 1) "F=ma" "F=ma" None None None
                   basic None)
                (signedIn "u1") Sample.db (mkUser "u1") eq_refl)
      as [_ Hok].
    destruct (Hok eq_refl)
      as (f & db' & Hrun & _ & _ & _ & _ & _ & _ & _ & _ & _ & _ & _ & _ & _
          & _ & _ & Hedit).
    exists f, db'. split; assumption.
Defined.

(** X11: in [updateFormula] without a groupId, in [archiveFormula] and in
    [createFormulaExample] the call of a signed-in user fails exactly when
    [ensureFormulaIsEditable] fails, and with its error: the extra group
    check [updateFormula] and [createFormulaExample] run afterwards never
    changes the outcome. *)
Theorem editability_decides (now : Date) (context : ActionAPIContext)
  (db : Db) (u : User) :
  currentUser context = Some u ->
  (forall input,
     UpdateFormulaInput.groupId input = None ->
     thrownError (outcome (updateFormula now input context db))
     = checkEditable (UpdateFormulaInput.id input) (user_id u) db)
  /\ (forall input,
        thrownError (outcome (archiveFormula now input context db))
        = checkEditable (ArchiveFormulaInput.id input) (user_id u) db)
  /\ (forall input,
        thrownError (outcome (createFormulaExample now input context db))
        = checkEditable (CreateExampleInput.formulaId input) (user_id u) db).
Proof.
  intros Hu. conjuncts.
  - intros input Hnone. rewrite (updateFormula_run now input context db u Hu).
    unfold checkEditable. rewrite Hnone. cbn [checkGroup].
    now destruct (outcome (ensureFormulaIsEditable _ _ _)).
  - intros input. rewrite (archiveFormula_run_all now input context db u Hu).
    now destruct (checkEditable _ _ _).
  - intros input.
    rewrite (createFormulaExample_run now input context db u Hu).
    now destruct (checkEditable _ _ _).
Qed.

(** On the sample database. *)
Lemma editability_decides_witness :
  thrownError (outcome (archiveFormula 500 (ArchiveFormulaInput.mk 3)
                          (signedIn "u1") Sample.db)) = Some forbidden
  /\ thrownError
       (outcome (createFormulaExample 500
                   (CreateExampleInput.mk 9 None "p" "s" None)
                   (signedIn "u1") Sample.db)) = Some formulaNotFound.
Proof.
  destruct (editability_decides 500 (signedIn "u1") Sample.db (mkUser "u1")
              eq_refl) as (_ & Harchive & Hexample).
  split.
  - rewrite (Harchive (ArchiveFormulaInput.mk 3)). reflexivity.
  - rewrite (Hexample (CreateExampleInput.mk 9 None "p" "s" None)).
    reflexivity.
Defined.

Lemma eq_number_true c v : eq_number c v = true <-> c = Some v.
Proof.
  unfold eq_number. destruct c as [x|].
  - rewrite Z.eqb_eq. split; congruence.
  - split; discriminate.
Qed.

Lemma difficulty_eqb_true a b : difficulty_eqb a b = true <-> a = b.
Proof. destruct a, b; simpl; split; congruence. Qed.

Lemma listedb_listed input f : listedb input f = true <-> listed input f.
Proof.
  unfold listedb, listed.
  rewrite !andb_true_iff, orb_true_iff, Bool.eqb_true_iff.
  destruct (formulasGroupId input) as [g|],
           (formulasDifficulty input) as [d|],
           (formulasIncludeInactive input);
    rewrite ?eq_number_true, ?difficulty_eqb_true;
    split;
    try (intros [[Hg Hd] Ha]; conjuncts; intros; try congruence;
         destruct Ha; congruence);
    intros (Hg & Hd & Ha); conjuncts; auto.
Qed.

Lemma listFormulas_run input context db u :
  currentUser context = Some u ->
  listFormulas input context db
  = (let items := filter (listedb input) (rows (Formulas db)) in
     (Returned
        (mkResponse true (Some (DataFormulas items (List.length items)))),
      db)).
Proof.
  intros Hu. unfold listFormulas. rewrite (signed_continue _ _ _ _ Hu).
  cbv zeta.
  assert (Hext : forall p : Formula.t -> bool,
            (forall f, p f = listedb input f) ->
            (formulas <- selectFormulas p ;;
             ret (mkResponse true
                    (Some (DataFormulas formulas (List.length formulas))))) db
            = (Returned
                 (mkResponse true
                    (Some (DataFormulas
                       (filter (listedb input) (rows (Formulas db)))
                       (List.length
                          (filter (listedb input) (rows (Formulas db))))))),
               db)).
  { intros p Hp. unfold bind, selectFormulas, select_where, ret.
    now rewrite (filter_ext p (listedb input) Hp). }
  destruct input as [[[g|] [d|] [|]]|];
    apply Hext; intros f; unfold and_, listedb; simpl;
    rewrite ?andb_true_r, ?andb_assoc; reflexivity.
Qed.

(** X12: for a signed-in caller [listFormulas] succeeds and writes nothing;
    [items] is exactly the selection of the formulas that match the supplied
    groupId, match the supplied difficulty and are active unless
    includeInactive is set, whoever owns their group; [total] is their
    number. *)
Theorem listFormulas_matching (input : option ListFormulasInput.t)
  (context : ActionAPIContext) (db : Db) (u : User) :
  currentUser context = Some u ->
  exists items,
    listFormulas input context db
    = (Returned
         (mkResponse true (Some (DataFormulas items (List.length items)))),
       db)
    /\ selection (listed input) (rows (Formulas db)) items
    /\ (forall f, In f items <->
                  In f (rows (Formulas db)) /\ listed input f).
Proof.
  intros Hu. rewrite (listFormulas_run input context db u Hu). cbv zeta.
  eexists. split; [reflexivity|].
  assert (Hsel : selection (listed input) (rows (Formulas db))
                   (filter (listedb input) (rows (Formulas db))))
    by (apply filter_selection; intros f; apply listedb_listed).
  split; [exact Hsel | apply (selection_In _ _ _ Hsel)].
Qed.

(** On the sample database. *)
Lemma listFormulas_matching_witness :
  exists items,
    listFormulas (Some (ListFormulasInput.mk (Some 1) None false))
      (signedIn "u2") Sample.db
    = (Returned
         (mkResponse true (Some (DataFormulas items (List.length items)))),
       Sample.db)
    /\ forall f, In f items -> Formula.groupId f = Some 1.
Proof.
  destruct (listFormulas_matching
              (Some (ListFormulasInput.mk (Some 1) None false))
              (signedIn "u2") Sample.db (mkUser "u2") eq_refl)
    as (items & Hrun & _ & Hin).
  exists items. split; [exact Hrun|].
  intros f Hf. apply Hin in Hf. destruct Hf as [_ [Hg _]].
  now apply Hg.
Defined.

(** X13: an archived formula drops out of the default listing and stays in
    the full one: after a successful [archiveFormula], a [listFormulas] call
    without includeInactive returns no formula with the archived id, and one
    with includeInactive and no other filter returns every stored formula,
    as many as before. *)
Theorem archived_formula_not_listed (now : Date)
  (input : ArchiveFormulaInput.t) (context : ActionAPIContext) (db : Db)
  (u : User) :
  currentUser context = Some u ->
  checkEditable (ArchiveFormulaInput.id input) (user_id u) db = None ->
  exists db',
    archiveFormula now input context db
    = (Returned (mkResponse true None), db')
    /\ (forall filters items total,
          formulasIncludeInactive filters = false ->
          listFormulas filters context db'
          = (Returned (mkResponse true (Some (DataFormulas items total))),
             db') ->
          forall f, In f items -> Formula.id f <> ArchiveFormulaInput.id input)
    /\ listFormulas (Some (ListFormulasInput.mk None None true)) context db'
       = (Returned
            (mkResponse true
               (Some (DataFormulas (rows (Formulas db'))
                        (List.length (rows (Formulas db)))))),
          db').
Proof.
  intros Hu Hedit.
  rewrite (archiveFormula_run_all now input context db u Hu), Hedit.
  eexists. split; [reflexivity|]. split.
  - intros filters items total Hinc Hlist f Hf Hid.
    rewrite (listFormulas_run filters context _ u Hu) in Hlist.
    cbv zeta in Hlist. inversion Hlist as [[Hitems Htotal]].
    rewrite <- Hitems in Hf. apply filter_In in Hf. destruct Hf as [Hin Hl].
    apply listedb_listed in Hl. destruct Hl as (_ & _ & Hact).
    specialize (Hact Hinc).
    unfold archived_db in Hin. cbn [Formulas update_where snd rows] in Hin.
    apply in_map_iff in Hin. destruct Hin as (f0 & Hf0 & _).
    destruct (row_id f0 =? ArchiveFormulaInput.id input) eqn:E.
    + rewrite <- Hf0 in Hact. simpl in Hact. discriminate.
    + subst f. apply Z.eqb_neq in E. contradiction.
  - rewrite (listFormulas_run _ context _ u Hu). cbv zeta.
    assert (Hall : forall l : list Formula.t,
              filter (listedb (Some (ListFormulasInput.mk None None true))) l
              = l).
    { induction l as [|x l IH]; simpl; [reflexivity|]. now rewrite IH. }
    rewrite Hall. unfold archived_db.
    cbn [Formulas update_where snd rows]. now rewrite length_map.
Qed.

(** On the sample database. *)
Lemma archived_formula_not_listed_witness :
  exists db',
    archiveFormula 500 (ArchiveFormulaInput.mk 2) (signedIn "u2") Sample.db
    = (Returned (mkResponse true None), db')
    /\ forall items total,
         listFormulas None (signedIn "u1") db'
         = (Returned (mkResponse true (Some (DataFormulas items total))), db')
         -> forall f, In f items -> Formula.id f <> 2.
Proof.
  destruct (archived_formula_not_listed 500 (ArchiveFormulaInput.mk 2)
              (signedIn "u2") Sample.db (mkUser "u2") eq_refl eq_refl)
    as (db' & Hrun & _).
  exists db'. split; [exact Hrun|].
  destruct (archived_formula_not_listed 500 (ArchiveFormulaInput.mk 2)
              (signedIn "u2") Sample.db (mkUser "u2") eq_refl eq_refl)
    as (db2 & Hrun2 & Hdrop & _).
  rewrite Hrun in Hrun2. inversion Hrun2; subst db2.
  intros items total. apply (Hdrop None items total eq_refl).
Defined.

(** X14: after a formula is moved, edit rights follow the destination: when
    an [updateFormula] call that supplies groupId [g] succeeds, the stored
    formula sits in [g], and [ensureFormulaIsEditable] fails for a user
    exactly when the group check on [g] fails for that user, with its
    error. *)
Theorem moved_formula_follows_new_group (now : Date)
  (input : UpdateFormulaInput.t) (context : ActionAPIContext) (db db' : Db)
  (resp : Response) (g : Z) :
  UpdateFormulaInput.groupId input = Some g ->
  updateFormula now input context db = (Returned resp, db') ->
  exists f',
    resp = mkResponse true (Some (DataFormula (Some f')))
    /\ findFormula db' (UpdateFormulaInput.id input) = Some f'
    /\ Formula.groupId f' = Some g
    /\ forall userId,
         thrownError
           (outcome (ensureFormulaIsEditable (UpdateFormulaInput.id input)
                       userId db'))
         = checkGroup (Some g) userId db.
Proof.
  intros Hg Hrun.
  destruct (currentUser context) as [u|] eqn:Hu.
  2:{ unfold updateFormula in Hrun.
      rewrite (anonymous_thrown _ _ _ Hu) in Hrun. discriminate. }
  rewrite (updateFormula_run now input context db u Hu) in Hrun.
  destruct (outcome (ensureFormulaIsEditable (UpdateFormulaInput.id input)
                       (user_id u) db)) as [f|e] eqn:Hf; [|discriminate].
  destruct (checkGroup (UpdateFormulaInput.groupId input) (user_id u) db);
    [discriminate|].
  inversion Hrun as [[Hresp Hdb]]. clear Hrun.
  destruct (editable_group_passes _ _ _ _ Hf) as [Hfound _].
  assert (Hfound' : findFormula
                      (withFormulas
                         (rewritten (UpdateFormulaInput.id input)
                            (setFormula now input) (Formulas db)) db)
                      (UpdateFormulaInput.id input)
                    = Some (setFormula now input f)).
  { unfold findFormula in *. cbn [withFormulas Formulas rewritten rows].
    pose proof (find_update_where (UpdateFormulaInput.id input)
                  (setFormula now input) (rows (Formulas db))
                  (fun _ => eq_refl)) as E.
    unfold row_id, Formula_HasId in *. now rewrite E, Hfound. }
  exists (setFormula now input f). conjuncts.
  - reflexivity.
  - exact Hfound'.
  - simpl. now rewrite Hg.
  - intros userId.
    rewrite (ensureFormulaIsEditable_by_group _ _ _ _ Hfound').
    unfold outcome. cbn [fst].
    rewrite (checkGroup_frame _ _ db) by reflexivity.
    cbn [setFormula Formula.groupId]. rewrite Hg. cbn [spread_nullable].
    now destruct (checkGroup (Some g) userId db).
Qed.

(** On the sample database. *)
Lemma moved_formula_follows_new_group_witness :
  thrownError
    (outcome (ensureFormulaIsEditable 2 "u2"
                (final (updateFormula 500 (Sample.moveFormula 2 1)
                          (signedIn "u1") Sample.db))))
  = Some forbidden.
Proof.
  destruct (moved_formula_follows_new_group 500 (Sample.moveFormula 2 1)
              (signedIn "u1") Sample.db
              (final (updateFormula 500 (Sample.moveFormula 2 1)
                        (signedIn "u1") Sample.db))
              (mkResponse true
                 (Some (DataFormula
                    (findFormula
                       (final (updateFormula 500 (Sample.moveFormula 2 1)
                                 (signedIn "u1") Sample.db)) 2))))
              1 eq_refl eq_refl)
    as (f' & _ & _ & _ & Hrights).
  exact (Hrights "u2").
Defined.

(** ** Examples: create and list *)

Lemma listFormulaExamples_run input context db u :
  currentUser context = Some u ->
  listFormulaExamples input context db
  = (let items :=
       filter (fun e => FormulaExample.formulaId e
                        =? ListExamplesInput.formulaId input)
         (rows (FormulaExamples db)) in
     (Returned
        (mkResponse true (Some (DataExamples items (List.length items)))),
      db)).
Proof.
  intros Hu. unfold listFormulaExamples.
  now rewrite (signed_continue _ _ _ _ Hu).
Qed.

(** X15: an example created on an editable formula is stored with the
    input's fields, a fresh id and createdAt the time of the call, and every
    signed-in user then lists it: [listFormulaExamples] for that formula
    returns what it returned before followed by the new example. *)
Theorem created_example_is_listed (now : Date) (input : CreateExampleInput.t)
  (context reader : ActionAPIContext) (db : Db) (u v : User) :
  currentUser context = Some u ->
  currentUser reader = Some v ->
  checkEditable (CreateExampleInput.formulaId input) (user_id u) db = None ->
  exists ex db',
    createFormulaExample now input context db
    = (Returned (mkResponse true (Some (DataExample (Some ex)))), db')
    /\ rows (FormulaExamples db') = rows (FormulaExamples db) ++ [ex]
    /\ (forall r, In r (rows (FormulaExamples db)) ->
                  FormulaExample.id r < FormulaExample.id ex)
    /\ FormulaExample.formulaId ex = CreateExampleInput.formulaId input
    /\ FormulaExample.title ex = CreateExampleInput.title input
    /\ FormulaExample.problem ex = CreateExampleInput.problem input
    /\ FormulaExample.solution ex = CreateExampleInput.solution input
    /\ FormulaExample.data ex = CreateExampleInput.data input
    /\ FormulaExample.createdAt ex = now
    /\ forall before total,
         listFormulaExamples
           (ListExamplesInput.mk (CreateExampleInput.formulaId input))
           reader db
         = (Returned (mkResponse true (Some (DataExamples before total))), db)
         ->
         listFormulaExamples
           (ListExamplesInput.mk (CreateExampleInput.formulaId input))
           reader db'
         = (Returned
              (mkResponse true
                 (Some (DataExamples (before ++ [ex])
                          (List.length (before ++ [ex]))))),
            db').
Proof.
  intros Hu Hv Hedit.
  rewrite (createFormulaExample_run now input context db u Hu), Hedit.
  eexists. eexists. split; [reflexivity|].
  conjuncts; try reflexivity.
  - intros r Hr. apply (next_id_fresh (FormulaExamples db) r Hr).
  - intros before total Hlist.
    rewrite (listFormulaExamples_run _ reader db v Hv) in Hlist.
    rewrite (listFormulaExamples_run _ reader _ v Hv).
    cbv zeta in *. inversion Hlist as [[Hbefore Htotal]].
    cbn [withFormulaExamples FormulaExamples appended rows
         ListExamplesInput.formulaId].
    rewrite filter_app. cbn [filter createdExample FormulaExample.formulaId].
    now rewrite Z.eqb_refl.
Qed.

(** On the sample database. *)
Lemma created_example_is_listed_witness :
  exists ex db',
    createFormulaExample 500 (CreateExampleInput.mk 1 None "p" "s" None)
      (signedIn "u1") Sample.db
    = (Returned (mkResponse true (Some (DataExample (Some ex)))), db')
    /\ listFormulaExamples (ListExamplesInput.mk 1) (signedIn "u2") db'
       = (Returned
            (mkResponse true
               (Some (DataExamples
                  ([FormulaExample.mk 1 1 None "p" "s" None 300;
                    FormulaExample.mk 3 1 None "q" "r" None 301] ++ [ex])
                  3))),
          db').
Proof.
  destruct (created_example_is_listed 500
              (CreateExampleInput.mk 1 None "p" "s" None)
              (signedIn "u1") (signedIn "u2") Sample.db (mkUser "u1")
              (mkUser "u2") eq_refl eq_refl eq_refl)
    as (ex & db' & Hrun & _ & _ & _ & _ & _ & _ & _ & _ & Hlist).
  exists ex, db'. split; [exact Hrun|].
  exact (Hlist [FormulaExample.mk 1 1 None "p" "s" None 300;
                FormulaExample.mk 3 1 None "q" "r" None 301] 2%nat eq_refl).
Defined.

(** ** User state: upsert and list *)

Lemma setUserState_patched now input s :
  state_patched now input s (setUserState now input s).
Proof.
  unfold state_patched, setUserState; simpl. conjuncts; auto with patch.
Qed.

Lemma setUserState_carries now input s : carries input (setUserState now input s).
Proof.
  unfold carries, setUserState; simpl.
  conjuncts; intros x Hx; rewrite Hx; reflexivity.
Qed.

Lemma find_unique_id {R} `{HasId R} (l : list R) (r : R) :
  NoDup (map row_id l) -> In r l ->
  find (fun x => row_id x =? row_id r) l = Some r.
Proof.
  induction l as [|a l IH]; simpl; intros Hnd Hin; [contradiction|].
  inversion Hnd as [|? ? Hnotin Hnd']; subst.
  destruct Hin as [->|Hin].
  - now rewrite Z.eqb_refl.
  - destruct (row_id a =? row_id r) eqn:E; [|now apply IH].
    apply Z.eqb_eq in E. exfalso. apply Hnotin. rewrite E.
    apply in_map_iff. eauto.
Qed.

Lemma listUserFormulaStates_run input context db u :
  currentUser context = Some u ->
  listUserFormulaStates input context db
  = (let items :=
       filter (fun s => String.eqb (UserState.userId s) (user_id u)
                        && (negb (favoritesOnly input)
                            || Bool.eqb (UserState.isFavorite s) true))
         (rows (UserFormulaState db)) in
     (Returned (mkResponse true (Some (DataStates items (List.length items)))),
      db)).
Proof.
  intros Hu. unfold listUserFormulaStates.
  rewrite (signed_continue _ _ _ _ Hu). cbv zeta.
  unfold bind, selectUserFormulaState, select_where, ret.
  assert (Hext : forall p q : UserState.t -> bool,
            (forall s, p s = q s) ->
            forall l, filter p l = filter q l)
    by (intros p q Hpq l; now apply filter_ext).
  destruct input as [[[|]]|]; cbn [favoritesOnly option_map nullish
    ListStatesInput.favoritesOnly negb orb];
    erewrite Hext; try reflexivity; intros s; unfold and_; simpl;
    now rewrite ?andb_true_r.
Qed.

(** X16: when the caller's pair has a state row and ids are unique,
    [upsertUserFormulaState] rewrites that row and nothing else: supplied
    fields take the supplied values, omitted ones and id, userId, formulaId
    and createdAt are kept, updatedAt is the time of the call; no row is
    added and every other row and table is unchanged; the patched row is
    returned. *)
Theorem upsert_patches_existing_row (now : Date) (input : UpsertStateInput.t)
  (context : ActionAPIContext) (db : Db) (u : User) (existing : UserState.t) :
  currentUser context = Some u ->
  unique_ids (UserFormulaState db) ->
  find (state_ofb (user_id u) (UpsertStateInput.formulaId input))
    (rows (UserFormulaState db)) = Some existing ->
  exists s' db',
    upsertUserFormulaState now input context db
    = (Returned (mkResponse true (Some (DataState (Some s')))), db')
    /\ state_patched now input existing s'
    /\ only_row_changed (UserState.id existing) (state_patched now input)
         (UserFormulaState db) (UserFormulaState db')
    /\ (forall r, In r (rows (UserFormulaState db)) ->
                  UserState.id r = UserState.id existing -> r = existing)
    /\ FormulaGroups db' = FormulaGroups db
    /\ Formulas db' = Formulas db
    /\ FormulaExamples db' = FormulaExamples db.
Proof.
  intros Hu Huniq Hfind.
  rewrite (upsertUserFormulaState_run now input context db u Hu), Hfind.
  pose proof (find_some _ _ Hfind) as [Hin _].
  pose proof (find_unique_id (rows (UserFormulaState db)) existing Huniq Hin)
    as Hbyid.
  unfold row_id, UserState_HasId in Hbyid. rewrite Hbyid. cbn [option_map].
  eexists. eexists. split; [reflexivity|]. conjuncts; try reflexivity.
  - apply setUserState_patched.
  - apply (update_where_rows (UserState.id existing)
             (setUserState now input) (state_patched now input)).
    apply setUserState_patched.
  - intros r Hr Hid.
    pose proof (find_unique_id (rows (UserFormulaState db)) r Huniq Hr) as E.
    unfold row_id, UserState_HasId in E. rewrite Hid, Hbyid in E.
    now inversion E.
Qed.

(** On the sample database. *)
Lemma upsert_patches_existing_row_witness :
  exists s' db',
    upsertUserFormulaState 500 (UpsertStateInput.mk 1 None (Some "easy") None)
      (signedIn "u2") Sample.db
    = (Returned (mkResponse true (Some (DataState (Some s')))), db')
    /\ state_patched 500 (UpsertStateInput.mk 1 None (Some "easy") None)
         (UserState.mk 2 "u2" 1 false (Some "hard") new 400 400) s'.
Proof.
  destruct (upsert_patches_existing_row 500
              (UpsertStateInput.mk 1 None (Some "easy") None)
              (signedIn "u2") Sample.db (mkUser "u2")
              (UserState.mk 2 "u2" 1 false (Some "hard") new 400 400)
              eq_refl (proj2 (proj2 (proj2 sample_keys_unique))) eq_refl)
    as (s' & db' & Hrun & Hpatched & _).
  exists s', db'. split; assumption.
Defined.

(** X17: [upsertUserFormulaState] asks for nothing but the formula: for a
    signed-in caller, whenever a formula with the given id is stored
    (whoever owns its group) or the caller's pair already has a row, the
    call returns; afterwards the pair has a stored row that carries every
    supplied field and was updated at the time of the call, the caller's own
    listing contains it, and no other table has changed.  When neither
    holds, the insert is refused with the store's foreign-key error and
    nothing is written. *)
Theorem upsert_needs_only_the_formula (now : Date)
  (input : UpsertStateInput.t) (context : ActionAPIContext) (db : Db)
  (u : User) :
  currentUser context = Some u ->
  (findFormula db (UpsertStateInput.formulaId input) <> None
   \/ (exists s0, In s0 (rows (UserFormulaState db))
                  /\ state_of (user_id u) (UpsertStateInput.formulaId input)
                       s0) ->
   exists resp db' s,
     upsertUserFormulaState now input context db = (Returned resp, db')
     /\ In s (rows (UserFormulaState db'))
     /\ state_of (user_id u) (UpsertStateInput.formulaId input) s
     /\ carries input s
     /\ UserState.updatedAt s = now
     /\ (exists items,
           listUserFormulaStates None context db'
           = (Returned
                (mkResponse true
                   (Some (DataStates items (List.length items)))), db')
           /\ In s items)
     /\ FormulaGroups db' = FormulaGroups db
     /\ Formulas db' = Formulas db
     /\ FormulaExamples db' = FormulaExamples db)
  /\ (findFormula db (UpsertStateInput.formulaId input) = None ->
      (forall s0, In s0 (rows (UserFormulaState db)) ->
         ~ state_of (user_id u) (UpsertStateInput.formulaId input) s0) ->
      thrownCode (outcome (upsertUserFormulaState now input context db))
      = Some SQLITE_CONSTRAINT_FOREIGNKEY
      /\ final (upsertUserFormulaState now input context db) = db).
Proof.
  intros Hu.
  assert (Hlisted : forall db' s,
            In s (rows (UserFormulaState db')) ->
            UserState.userId s = user_id u ->
            exists items,
              listUserFormulaStates None context db'
              = (Returned
                   (mkResponse true
                      (Some (DataStates items (List.length items)))), db')
              /\ In s items).
  { intros db' s Hin Hmine.
    rewrite (listUserFormulaStates_run None context db' u Hu). cbv zeta.
    eexists. split; [reflexivity|]. apply filter_In. split; [exact Hin|].
    rewrite Hmine, String.eqb_refl. reflexivity. }
  rewrite (upsertUserFormulaState_run now input context db u Hu).
  destruct (find _ (rows (UserFormulaState db))) as [existing|] eqn:Hfind.
  - pose proof (find_some _ _ Hfind) as [Hin Hpair].
    apply state_ofb_true in Hpair. destruct Hpair as [Huser Hformula].
    split.
    + intros _.
      assert (Hstored : In (setUserState now input existing)
                          (rows (rewritten (UserState.id existing)
                                   (setUserState now input)
                                   (UserFormulaState db)))).
      { cbn [rewritten rows]. apply in_map_iff. exists existing.
        split; [|exact Hin].
        unfold row_id, UserState_HasId. now rewrite Z.eqb_refl. }
      eexists. eexists. exists (setUserState now input existing).
      split; [reflexivity|]. conjuncts; try reflexivity.
      * exact Hstored.
      * split; [exact Hformula | exact Huser].
      * apply setUserState_carries.
      * apply Hlisted; [exact Hstored | exact Huser].
    + intros _ Hnone. exfalso. apply (Hnone existing Hin).
      split; [exact Hformula | exact Huser].
  - destruct (findFormula db (UpsertStateInput.formulaId input)) as [f|]
      eqn:Hf.
    + split; [|discriminate]. intros _.
      assert (Hstored : In (createdState now input u
                              (next_id (UserFormulaState db)))
                          (rows (appended (createdState now input u)
                                   (UserFormulaState db)))).
      { cbn [appended rows]. apply in_app_iff. right. now left. }
      eexists. eexists.
      exists (createdState now input u (next_id (UserFormulaState db))).
      split; [reflexivity|]. conjuncts; try reflexivity.
      * exact Hstored.
      * split; reflexivity.
      * unfold carries, createdState; simpl.
        conjuncts; intros x Hx; rewrite Hx; reflexivity.
      * apply Hlisted; [exact Hstored | reflexivity].
    + split; [|intros _ _; split; reflexivity].
      intros [Hsome|(s0 & Hs0 & Hpair)]; [congruence|]. exfalso.
      pose proof (find_none _ _ Hfind s0 Hs0) as E.
      apply state_of_dec in Hpair. unfold state_ofb in E. congruence.
Qed.

(** On the sample database: u1 may not edit formula 3, which sits in u2's
    group, and still records a state for it; formula 99 is not stored. *)
Lemma upsert_needs_only_the_formula_witness :
  (exists resp db' s,
     upsertUserFormulaState 500 (UpsertStateInput.mk 3 (Some true) None None)
       (signedIn "u1") Sample.db = (Returned resp, db')
     /\ In s (rows (UserFormulaState db'))
     /\ state_of "u1" 3 s)
  /\ ensureFormulaIsEditable 3 "u1" Sample.db = (Thrown forbidden, Sample.db)
  /\ final (upsertUserFormulaState 500 Sample.orphan (signedIn "u1")
              Sample.db) = Sample.db.
Proof.
  conjuncts.
  - destruct (upsert_needs_only_the_formula 500
                (UpsertStateInput.mk 3 (Some true) None None) (signedIn "u1")
                Sample.db (mkUser "u1") eq_refl) as [Hstored _].
    destruct Hstored as (resp & db' & s & Hrun & Hin & Hpair & _).
    + left. vm_compute. discriminate.
    + exists resp, db', s. conjuncts; assumption.
  - reflexivity.
  - destruct (upsert_needs_only_the_formula 500 Sample.orphan (signedIn "u1")
                Sample.db (mkUser "u1") eq_refl) as [_ Hrefused].
    apply Hrefused; [reflexivity|].
    intros s Hs [Hf _]. simpl in Hs.
    destruct Hs as [<-|[<-|[<-|[]]]]; discriminate Hf.
Defined.
